(** * Jira filter permissions extractor: a shallow embedding of
    [get-filter-permissions.py] and the properties of its pipeline.

    The script lists the saved filters of a Jira instance page by page,
    fetches the detail record of each one through a pool of five workers,
    formats the permission grants of each record and writes a CSV report.

    Layout of the development:
    - [Py]: the Python values the script handles (decoded JSON) and the
      primitive operations it applies to them, with the exceptions they raise;
    - [Eff]: the effects of a run (log records, HTTP requests, the file
      written, console lines) as a trace, with a small monad over it;
    - [Jira]: the functions of the script, one definition per function;
    - the properties, grouped by function. *)

From Stdlib Require Import ZArith Lia List Ascii String.
From stdpp Require Import base list strings pretty.

Local Open Scope Z_scope.
Local Open Scope string_scope.
Set Warnings "-register-all".

(** ** Python values and primitives *)

Module Py.

(** Values decoded by [response.json()]: [None], booleans, integers,
    strings, lists and dictionaries.  A dictionary keeps its items in
    insertion order, as Python's does, so it is an association list (keys
    are the strings of a JSON object; a lookup takes the first item with the
    key).  Numbers are the integers: the records of the filter API carry
    identifiers and counts only.  A string is its sequence of characters. *)
Inductive json : Type :=
| JNull
| JBool (b : bool)
| JNum (n : Z)
| JStr (s : string)
| JList (l : list json)
| JObj (m : list (string * json)).

(** The exceptions the script can meet. *)
Inductive exn : Type :=
| KeyError (key : string)
| TypeError
| AttributeError
| JSONDecodeError.

(** The result of a primitive: a value or a raised exception. *)
Inductive result (A : Type) : Type :=
| Ok (a : A)
| Err (e : exn).
Arguments Ok {A} a.
Arguments Err {A} e.

#[export] Instance result_ret : MRet result := @Ok.
#[export] Instance result_bind : MBind result := fun A B f r =>
  match r with
  | Ok a => f a
  | Err e => Err e
  end.

(** [d.get(key)] on the items of a dictionary. *)
Fixpoint assoc (key : string) (m : list (string * json)) : option json :=
  match m with
  | [] => None
  | (k, v) :: m' => if String.eqb k key then Some v else assoc key m'
  end.

(** [v[key]] with a string key: only a dictionary accepts it. *)
Definition subscript (v : json) (key : string) : result json :=
  match v with
  | JObj m =>
      match assoc key m with
      | Some x => Ok x
      | None => Err (KeyError key)
      end
  | _ => Err TypeError
  end.

(** [v.get(key, default)]: an attribute of dictionaries only. *)
Definition dict_get (v : json) (key : string) (default : json) : result json :=
  match v with
  | JObj m =>
      match assoc key m with
      | Some x => Ok x
      | None => Ok default
      end
  | _ => Err AttributeError
  end.

(** [v == s] for a string literal [s]. *)
Definition eq_str (v : json) (s : string) : bool :=
  match v with
  | JStr s' => String.eqb s' s
  | _ => false
  end.

(** [s in t] on strings. *)
Definition is_substring (s t : string) : bool :=
  match String.index 0 s t with
  | Some _ => true
  | None => false
  end.

(** [key in v]: a key of a dictionary, an element of a list, a substring
    of a string; the other values are not containers. *)
Definition contains (key : string) (v : json) : result bool :=
  match v with
  | JObj m => Ok (bool_decide (is_Some (assoc key m)))
  | JList l => Ok (existsb (fun x => eq_str x key) l)
  | JStr t => Ok (is_substring key t)
  | _ => Err TypeError
  end.

(** The items a [for] loop or [list.extend] draws from a value. *)
Definition iter (v : json) : result (list json) :=
  match v with
  | JList l => Ok l
  | JStr s => Ok (map (fun c => JStr (String c EmptyString)) (list_ascii_of_string s))
  | JObj m => Ok (map (fun kv => JStr (fst kv)) m)
  | _ => Err TypeError
  end.

(** Truth value of a value in a condition. *)
Definition truthy (v : json) : bool :=
  match v with
  | JNull => false
  | JBool b => b
  | JNum n => negb (Z.eqb n 0)
  | JStr s => negb (String.eqb s "")
  | JList l => negb (bool_decide (l = []))
  | JObj m => negb (bool_decide (m = []))
  end.

(** [v is None]. *)
Definition is_None (v : json) : bool :=
  match v with
  | JNull => true
  | _ => false
  end.

(** *** [repr] and [str] *)

Definition hex_digit (n : N) : ascii :=
  ascii_of_N (if (n <? 10)%N then 48 + n else 87 + n)%N.

Definition tab : ascii := "009"%char.
Definition newline : ascii := "010"%char.
Definition carriage_return : ascii := "013"%char.
Definition backslash : ascii := "092"%char.
Definition double_quote : ascii := "034"%char.
Definition single_quote : ascii := "039"%char.

Definition mem_ascii (c : ascii) (s : string) : bool :=
  existsb (Ascii.eqb c) (list_ascii_of_string s).

(** The text [repr] gives one character inside the quotes [q]. *)
Definition repr_char (q c : ascii) : string :=
  if Ascii.eqb c backslash || Ascii.eqb c q then String backslash (String c "")
  else if Ascii.eqb c tab then String backslash "t"
  else if Ascii.eqb c newline then String backslash "n"
  else if Ascii.eqb c carriage_return then String backslash "r"
  else if (N_of_ascii c <? 32)%N || (N_of_ascii c =? 127)%N then
    String backslash
      (String "x" (String (hex_digit (N_of_ascii c / 16))
                  (String (hex_digit (N_of_ascii c mod 16)) "")))
  else String c "".

(** [repr] of a string: single quotes, unless the string holds a single
    quote and no double quote. *)
Definition repr_str (s : string) : string :=
  let q := if mem_ascii single_quote s && negb (mem_ascii double_quote s)
           then double_quote else single_quote in
  String q (String.concat "" (map (repr_char q) (list_ascii_of_string s)))
  ++ String q "".

Fixpoint repr (v : json) : string :=
  match v with
  | JNull => "None"
  | JBool true => "True"
  | JBool false => "False"
  | JNum n => pretty n
  | JStr s => repr_str s
  | JList l => "[" ++ String.concat ", " (map repr l) ++ "]"
  | JObj m =>
      "{" ++ String.concat ", "
               (map (fun kv => repr_str (fst kv) ++ ": " ++ repr (snd kv)) m)
      ++ "}"
  end.

(** [str(v)], which an f-string applies to each value it interpolates. *)
Definition str (v : json) : string :=
  match v with
  | JStr s => s
  | _ => repr v
  end.

(** [sep.join(items)]: every item has to be a string. *)
Fixpoint strings_of (items : list json) : result (list string) :=
  match items with
  | [] => Ok []
  | JStr s :: items' => ss ← strings_of items'; Ok (s :: ss)
  | _ :: _ => Err TypeError
  end.

Definition join (sep : string) (items : list json) : result string :=
  ss ← strings_of items; Ok (String.concat sep ss).

(** *** [base64.b64encode] *)

Definition b64_char (n : N) : ascii :=
  ascii_of_N (if (n <? 26)%N then 65 + n
              else if (n <? 52)%N then 71 + n
              else if (n <? 62)%N then n - 4
              else if (n =? 62)%N then 43 else 47)%N.

Fixpoint b64_groups (bs : list N) : list ascii :=
  match bs with
  | [] => []
  | [a] =>
      let n := (a * 65536)%N in
      [b64_char (n / 262144); b64_char (n / 4096 mod 64); "="%char; "="%char]
  | [a; b] =>
      let n := (a * 65536 + b * 256)%N in
      [b64_char (n / 262144); b64_char (n / 4096 mod 64);
       b64_char (n / 64 mod 64); "="%char]
  | a :: b :: c :: bs' =>
      let n := (a * 65536 + b * 256 + c)%N in
      [b64_char (n / 262144); b64_char (n / 4096 mod 64);
       b64_char (n / 64 mod 64); b64_char (n mod 64)] ++ b64_groups bs'
  end.

Definition b64encode (s : string) : string :=
  string_of_list_ascii (b64_groups (map N_of_ascii (list_ascii_of_string s))).

End Py.

Import Py.

(** ** Effects of a run *)

Module Eff.

Inductive level : Type := DEBUG | INFO | WARNING | ERROR.

(** The two headers the script sends with every request. *)
Record headers : Type := {
  Authorization : string;
  Content_Type : string
}.

(** What the script reads of a [requests] response.  [json_body] is the
    value [response.json()] decodes from the body, [None] when the body is
    not JSON and the call raises. *)
Record response : Type := {
  status_code : Z;
  text : string;
  json_body : option json
}.

(** The Jira instance: its answer to a GET of a URL with given headers.
    The instance always answers; a run asks for each listing URL once, so
    an answer per URL covers every sequence of listing responses. *)
Definition server : Type := string -> headers -> response.

(** The observable effects, in the order they happen.  [Log] stands for a
    call of the [logging] module at a level, whatever threshold decides
    which records are shown ([main] sets it to INFO).  [Input] is a prompt
    of [input] or [getpass].  A CSV file is kept as its records, each the
    texts of its fields, before any quoting. *)
Inductive event : Type :=
| Log (lvl : level) (msg : string)
| Get (url : string) (h : headers)
| Input (prompt : string)
| ToCsv (filename : string) (records : list (list string))
| Print (line : string).

(** How a computation ends: with a value, with an exception that nothing
    catches, or not within the iterations granted to the paging loop. *)
Inductive outcome (A : Type) : Type :=
| Done (a : A)
| Raise (e : exn)
| OutOfFuel.
Arguments Done {A} a.
Arguments Raise {A} e.
Arguments OutOfFuel {A}.

(** A computation: the trace it leaves and how it ends. *)
Definition M (A : Type) : Type := (list event * outcome A)%type.

#[export] Instance M_ret : MRet M := fun A a => ([], Done a).
#[export] Instance M_bind : MBind M := fun A B f m =>
  match m with
  | (t, Done a) => ((t ++ (f a).1)%list, (f a).2)
  | (t, Raise e) => (t, Raise e)
  | (t, OutOfFuel) => (t, OutOfFuel)
  end.

Definition emit (e : event) : M unit := ([e], Done tt).
Definition raise {A} (e : exn) : M A := ([], Raise e).
Definition out_of_fuel {A} : M A := ([], OutOfFuel).

Definition lift {A} (r : result A) : M A :=
  match r with
  | Ok a => mret a
  | Err e => raise e
  end.

Definition log (lvl : level) (msg : string) : M unit := emit (Log lvl msg).

Definition requests_get (srv : server) (url : string) (h : headers) : M response :=
  emit (Get url h);; mret (srv url h).

Definition response_json (r : response) : M json :=
  match json_body r with
  | Some data => mret data
  | None => raise JSONDecodeError
  end.

(** [input(prompt)] and [getpass.getpass(prompt)], answered with [answer]. *)
Definition input (prompt answer : string) : M string :=
  emit (Input prompt);; mret answer.

(** The URLs requested, the log records of a level, the files written and
    the lines printed along a trace. *)
Definition requested (t : list event) : list string :=
  omap (fun e => match e with Get url _ => Some url | _ => None end) t.

Definition logged (lvl : level) (t : list event) : list string :=
  omap (fun e => match e with
                 | Log l msg => match lvl, l with
                                | DEBUG, DEBUG | INFO, INFO
                                | WARNING, WARNING | ERROR, ERROR => Some msg
                                | _, _ => None
                                end
                 | _ => None
                 end) t.

Definition written (t : list event) : list (string * list (list string)) :=
  omap (fun e => match e with ToCsv f r => Some (f, r) | _ => None end) t.

Definition printed (t : list event) : list string :=
  omap (fun e => match e with Print l => Some l | _ => None end) t.

(** A computation that leaves no file behind. *)
Definition writes_nothing {A} (m : M A) : Prop := written m.1 = [].

(** A property that every event of the trace of a computation has. *)
Definition trace_all {A} (P : event -> Prop) (m : M A) : Prop := Forall P m.1.

End Eff.

Import Eff.

(** ** The script *)

Module Jira.

Definition max_results : Z := 50.

Definition auth_headers (userName token : string) : headers :=
  {| Authorization := "Basic " ++ b64encode (userName ++ ":" ++ token);
     Content_Type := "application/json" |}.

Definition search_url (baseUrl api_version : string) (start_at : Z) : string :=
  baseUrl ++ "/rest/api/" ++ api_version ++ "/filter/search?startAt="
  ++ pretty start_at ++ "&maxResults=" ++ pretty max_results.

Definition filter_url (baseUrl api_version : string) (filter_id : json) : string :=
  baseUrl ++ "/rest/api/" ++ api_version ++ "/filter/" ++ str filter_id.

(** *** [get_jira_filters] *)

(** The variables of the paging loop. *)
Record paging : Type := {
  filters : list json;
  start_at : Z;
  is_last : json
}.

(** [while not is_last: ...], run for at most [fuel] iterations.  Both
    [break]s leave the loop with the filters accumulated so far. *)
Fixpoint paging_loop (fuel : nat) (srv : server) (h : headers)
    (baseUrl api_version : string) (st : paging) : M (list json) :=
  if truthy (is_last st) then mret (filters st)
  else
    match fuel with
    | O => out_of_fuel
    | S fuel' =>
        let url := search_url baseUrl api_version (start_at st) in
        log INFO ("Fetching filters from: " ++ url);;
        response ← requests_get srv url h;
        log DEBUG ("Response status code: " ++ pretty (status_code response));;
        if negb (Z.eqb (status_code response) 200) then
          log ERROR ("Failed to fetch filters: " ++ text response);;
          mret (filters st)
        else
          data ← response_json response;
          log DEBUG ("Response data: " ++ str data);;
          has_values ← lift (contains "values" data);
          if negb has_values then
            log ERROR ("Unexpected response format: " ++ str data);;
            mret (filters st)
          else
            values ← lift (subscript data "values");
            items ← lift (iter values);
            last ← lift (dict_get data "isLast" (JBool true));
            paging_loop fuel' srv h baseUrl api_version
              {| filters := (filters st ++ items)%list;
                 start_at := start_at st + max_results;
                 is_last := last |}
    end.

Definition get_jira_filters (fuel : nat) (srv : server)
    (userName token baseUrl api_version : string) : M (list json) :=
  paging_loop fuel srv (auth_headers userName token) baseUrl api_version
    {| filters := []; start_at := 0; is_last := JBool false |}.

(** *** [fetch_filter_details] *)

Definition fetch_filter_details (srv : server) (filter_id : json) (h : headers)
    (baseUrl api_version : string) : M json :=
  let url := filter_url baseUrl api_version filter_id in
  log DEBUG ("Fetching filter details from: " ++ url);;
  response ← requests_get srv url h;
  log DEBUG ("Response status code: " ++ pretty (status_code response));;
  if negb (Z.eqb (status_code response) 200) then
    log ERROR ("Failed to fetch filter details: " ++ text response);;
    mret JNull
  else
    filter_data ← response_json response;
    log DEBUG ("Filter details: " ++ str filter_data);;
    mret filter_data.

(** *** [format_permissions] *)

(** The [for perm in permissions] loop over the remaining grants, with the
    list [formatted_permissions] built so far. *)
Fixpoint format_loop (perms : list json) (formatted_permissions : list json)
    : result (list json) :=
  match perms with
  | [] => Ok formatted_permissions
  | perm :: perms' =>
      t ← dict_get perm "type" JNull;
      if eq_str t "user" then
        user ← subscript perm "user";
        name ← subscript user "displayName";
        format_loop perms' (formatted_permissions ++ [name])%list
      else
        t ← dict_get perm "type" JNull;
        if eq_str t "group" then
          group ← subscript perm "group";
          name ← subscript group "name";
          format_loop perms'
            (formatted_permissions ++ [JStr ("Group: " ++ str name)])%list
        else
          t ← dict_get perm "type" JNull;
          if eq_str t "projectRole" then
            role ← subscript perm "projectRole";
            name ← subscript role "name";
            format_loop perms'
              (formatted_permissions ++ [JStr ("Project Role: " ++ str name)])%list
          else format_loop perms' formatted_permissions
  end.

Definition format_permissions (permissions : json) : result string :=
  perms ← iter permissions;
  formatted_permissions ← format_loop perms [];
  join ", " formatted_permissions.

(** *** [pandas.DataFrame] and [to_csv] *)

(** A frame built from a list of dictionaries: the columns are the keys in
    the order they first appear, and a record without a key has a missing
    value ([None]) in that column. *)
Record DataFrame : Type := {
  columns : list string;
  rows : list (list json)
}.

Fixpoint add_keys (cols : list string) (keys : list string) : list string :=
  match keys with
  | [] => cols
  | k :: keys' =>
      add_keys (if existsb (String.eqb k) cols then cols else (cols ++ [k])%list) keys'
  end.

Definition frame_columns (data : list (list (string * json))) : list string :=
  fold_left (fun cols record => add_keys cols (map fst record)) data [].

Definition make_frame (data : list (list (string * json))) : DataFrame :=
  let cols := frame_columns data in
  {| columns := cols;
     rows := map (fun record => map (fun c => default JNull (assoc c record)) cols) data |}.

(** The text of a cell: a missing value is written as [na_rep], which
    [to_csv] leaves at its default, the empty string; any other value is
    written as its [str].  This is exact on strings, booleans and missing
    values, which is what the columns of the report hold; the float text
    pandas gives a column of numbers with a gap is not modelled. *)
Definition na_rep : string := "".

Definition cell_text (v : json) : string :=
  if is_None v then na_rep else str v.

(** [df.to_csv(filename, index=False)]: the header, then one record per
    row.  The file is created, or overwritten if it exists.  The file
    system is taken to accept the write, as the server is taken to answer:
    an [OSError] of the write is outside the model. *)
Definition to_csv (df : DataFrame) (filename : string) : M unit :=
  emit (ToCsv filename (columns df :: map (map cell_text) (rows df))).

(** *** [save_filters_to_csv] *)

(** The dictionary [filter_info] built for one filter. *)
Definition filter_info (filter : json) : result (list (string * json)) :=
  name ← subscript filter "name";
  owner ← subscript filter "owner";
  owner_name ← subscript owner "displayName";
  share ← subscript filter "sharePermissions";
  share_text ← format_permissions share;
  edit ← subscript filter "editPermissions";
  edit_text ← format_permissions edit;
  writable ← subscript filter "isWritable";
  last_used ← dict_get filter "approximateLastUsed" JNull;
  Ok [("Filter name", name);
      ("Owner", owner_name);
      ("Share Permissions", JStr share_text);
      ("Edit Permissions", JStr edit_text);
      ("Is Writable", writable);
      ("Approximate Last Used", last_used)].

(** The loop that builds [data], one dictionary per filter that is not
    [None]. *)
Fixpoint report_loop (filter_details : list json) (data : list (list (string * json)))
    : result (list (list (string * json))) :=
  match filter_details with
  | [] => Ok data
  | filter :: rest =>
      if is_None filter then report_loop rest data
      else
        info ← filter_info filter;
        report_loop rest (data ++ [info])%list
  end.

Definition save_filters_to_csv (filter_details : list json) (filename : string)
    : M unit :=
  if bool_decide (filter_details = []) then
    log WARNING "No filter details to save."
  else
    data ← lift (report_loop filter_details []);
    let df := make_frame data in
    log INFO ("Saving data to CSV: " ++ filename);;
    to_csv df filename.

(** *** [main] *)

(** The operator's answers to the four prompts, as [main] uses them: after
    [strip()], and after [lower()] for the instance type. *)
Record answers : Type := {
  instance_type : string;
  baseUrl : string;
  userName : string;
  secret : string
}.

(** The list comprehension that submits one fetch per filter: the
    identifiers read until a filter has no ['id'], and the exception raised
    there if any.  The fetches submitted before it still run. *)
Fixpoint submitted (filters : list json) : list json * option exn :=
  match filters with
  | [] => ([], None)
  | filter :: rest =>
      match subscript filter "id" with
      | Ok filter_id => let '(ids, e) := submitted rest in (filter_id :: ids, e)
      | Err e => ([], Some e)
      end
  end.

(** [as_completed(futures)] yields every future once, in an order the
    caller does not control.  The order is given by a [schedule]: each
    number picks one of the futures not yet yielded. *)
Fixpoint yield_order {A} (n : nat) (schedule : list nat) (pending : list A) : list A :=
  match n with
  | O => []
  | S n' =>
      let i := (hd 0%nat schedule `mod` length pending)%nat in
      match pending !! i with
      | Some f => f :: yield_order n' (tl schedule) (delete i pending)
      | None => []
      end
  end.

Definition as_completed {A} (schedule : list nat) (futures : list A) : list A :=
  yield_order (length futures) schedule futures.

(** The loop over the completed futures: [future.result()] returns the
    value of the fetch or raises its exception; a [None] is dropped. *)
Fixpoint collect (results : list (outcome json)) (filter_details : list json)
    : M (list json) :=
  match results with
  | [] => mret filter_details
  | Done result :: rest =>
      if negb (is_None result) then collect rest (filter_details ++ [result])%list
      else collect rest filter_details
  | Raise e :: _ => raise e
  | OutOfFuel :: _ => out_of_fuel
  end.

(** The [with ThreadPoolExecutor(...)] block.  The pool starts the
    fetches in the order they were submitted and runs them concurrently,
    so the records and requests of different fetches can interleave; the
    trace lists them fetch by fetch, in submission order, and nothing
    proved below depends on how they interleave.  The results are read in
    the order the futures are yielded.  Leaving the block waits for every
    fetch submitted.  The progress bar is not part of the trace. *)
Definition fetch_all (srv : server) (schedule : list nat) (filters : list json)
    (h : headers) (baseUrl api_version : string) : M (list json) :=
  let '(ids, failure) := submitted filters in
  let futures :=
    map (fun filter_id => fetch_filter_details srv filter_id h baseUrl api_version) ids in
  (concat (map fst futures), Done tt);;
  match failure with
  | Some e => raise e
  | None => collect (map snd (as_completed schedule futures)) []
  end.

Definition filename : string := "jira_filters.csv".

Definition main (fuel : nat) (srv : server) (schedule : list nat) (a : answers)
    : M unit :=
  instance_type ← input "Enter instance type (cloud/server): " (instance_type a);
  baseUrl ← input "Enter Jira instance URL: " (baseUrl a);
  userName ← input "Enter username: " (userName a);
  '(token, api_version) ←
    (if String.eqb instance_type "cloud" then
       token ← input "Enter API key: " (secret a); mret (token, "3")
     else
       token ← input "Enter password: " (secret a); mret (token, "2"));
  log INFO "Starting the Jira filter fetching process.";;
  log INFO ("Using instance type: " ++ instance_type);;
  log INFO ("Using baseUrl: " ++ baseUrl);;
  log INFO ("Using userName: " ++ userName);;
  filters ← get_jira_filters fuel srv userName token baseUrl api_version;
  if bool_decide (filters = []) then
    log WARNING "No filters found."
  else
    let h := auth_headers userName token in
    filter_details ← fetch_all srv schedule filters h baseUrl api_version;
    save_filters_to_csv filter_details filename;;
    emit (Print ("Filter details saved to " ++ filename)).

End Jira.

Import Jira.

(** ** The specification's reading of the data *)

Module Spec.

(** A permission grant as the data model has it: one of three variants
    carrying a name, or a grant of another kind. *)
Inductive grant : Type :=
| UserGrant (displayName : string)
| GroupGrant (name : string)
| RoleGrant (name : string)
| OtherGrant.

(** The name under [m[key][field]], when it is there and is a string. *)
Definition payload_name (m : list (string * json)) (key field : string) : option string :=
  match assoc key m with
  | Some (JObj payload) =>
      match assoc field payload with
      | Some (JStr name) => Some name
      | _ => None
      end
  | _ => None
  end.

(** The branch [format_permissions] can take for a record, which its
    ['type'] alone decides. *)
Inductive recognized : Type := IsUser | IsGroup | IsRole | IsOther.

Definition type_of (m : list (string * json)) : recognized :=
  let t := default JNull (assoc "type" m) in
  if eq_str t "user" then IsUser
  else if eq_str t "group" then IsGroup
  else if eq_str t "projectRole" then IsRole
  else IsOther.

(** The grant a record stands for: a record of a recognized type has to
    carry its payload; a record of another type, or of none, is [OtherGrant]. *)
Definition decode_grant (perm : json) : option grant :=
  match perm with
  | JObj m =>
      match type_of m with
      | IsUser => UserGrant <$> payload_name m "user" "displayName"
      | IsGroup => GroupGrant <$> payload_name m "group" "name"
      | IsRole => RoleGrant <$> payload_name m "projectRole" "name"
      | IsOther => Some OtherGrant
      end
  | _ => None
  end.

(** What each grant contributes to the formatted text. *)
Definition contribution (g : grant) : list string :=
  match g with
  | UserGrant displayName => [displayName]
  | GroupGrant name => ["Group: " ++ name]
  | RoleGrant name => ["Project Role: " ++ name]
  | OtherGrant => []
  end.

Definition formatted (gs : list grant) : string :=
  String.concat ", " (concat (map contribution gs)).

(** A record of a recognized type whose payload key is missing: the outer
    key is absent or is not a record, or the record lacks the name. *)
Definition has_payload (m : list (string * json)) (key field : string) : bool :=
  match assoc key m with
  | Some (JObj payload) => bool_decide (is_Some (assoc field payload))
  | _ => false
  end.

Definition lacks_payload (perm : json) : bool :=
  match perm with
  | JObj m =>
      match type_of m with
      | IsUser => negb (has_payload m "user" "displayName")
      | IsGroup => negb (has_payload m "group" "name")
      | IsRole => negb (has_payload m "projectRole" "name")
      | IsOther => false
      end
  | _ => false
  end.

(** The URL of the [i]-th request of the listing, at offset [50 * i], and
    the server's answer to it. *)
Definition page_url (baseUrl api_version : string) (i : nat) : string :=
  search_url baseUrl api_version (50 * Z.of_nat i).

Definition page_at (srv : server) (userName token baseUrl api_version : string)
    (i : nat) : response :=
  srv (page_url baseUrl api_version i) (auth_headers userName token).

(** A well-formed page of the listing: status 200 and a body with a
    ['values'] list and an ['isLast'] flag. *)
Definition well_formed_page (r : response) (values : list json) (last : bool) : Prop :=
  status_code r = 200 /\
  exists m, json_body r = Some (JObj m)
            /\ assoc "values" m = Some (JList values)
            /\ assoc "isLast" m = Some (JBool last).

(** A page the loop accepts: status 200 and a body with a ['values'] field
    whose items can be drawn.  [last] is what the loop reads as the flag:
    the ['isLast'] field, or [True] when the body has none. *)
Definition listing_page (r : response) (items : list json) (last : json) : Prop :=
  status_code r = 200 /\
  exists m values, json_body r = Some (JObj m)
                   /\ assoc "values" m = Some values
                   /\ iter values = Ok items
                   /\ default (JBool true) (assoc "isLast" m) = last.

(** A page that is not the last one. *)
Definition continuing_page (r : response) (items : list json) : Prop :=
  exists last, listing_page r items last /\ truthy last = false.

(** A page that fails: a status other than 200, or a 200 response whose
    JSON body does not hold ['values'], that is, on which the test
    ['values' in data] is defined and false: an object without the key, a
    list or a string that does not hold it. *)
Definition failing_page (r : response) : Prop :=
  status_code r <> 200 \/
  (status_code r = 200 /\
   exists data, json_body r = Some data /\ contains "values" data = Ok false).

(** The header of the report. *)
Definition report_columns : list string :=
  ["Filter name"; "Owner"; "Share Permissions"; "Edit Permissions";
   "Is Writable"; "Approximate Last Used"].

(** A detail that is not [None]; a detail complete enough for a row to be
    built from it; the texts of that row. *)
Definition present (d : json) : bool := negb (is_None d).

Definition reportable (d : json) : Prop := exists info, filter_info d = Ok info.

Definition row_of (d : json) : list string :=
  match filter_info d with
  | Ok info => map (fun kv => cell_text kv.2) info
  | Err _ => []
  end.

(** The API version [main] picks for the instance type. *)
Definition api_version_of (a : answers) : string :=
  if String.eqb (instance_type a) "cloud" then "3" else "2".

(** The server's answer to the detail request for a filter identifier;
    whether it is a success; whether a row can be built from its body; the
    body itself. *)
Definition detail_at (srv : server) (a : answers) (filter_id : json) : response :=
  srv (filter_url (baseUrl a) (api_version_of a) filter_id)
      (auth_headers (userName a) (secret a)).

Definition fetched (r : response) : bool := Z.eqb (status_code r) 200.

Definition usable (r : response) : bool :=
  match json_body r with
  | Some d =>
      present d && match filter_info d with Ok _ => true | Err _ => false end
  | None => false
  end.

Definition body (r : response) : json := default JNull (json_body r).

(** The prompts and the first log records of a run. *)
Definition startup (a : answers) : list event :=
  [Input "Enter instance type (cloud/server): ";
   Input "Enter Jira instance URL: ";
   Input "Enter username: ";
   Input (if String.eqb (instance_type a) "cloud"
          then "Enter API key: " else "Enter password: ");
   Log INFO "Starting the Jira filter fetching process.";
   Log INFO ("Using instance type: " ++ instance_type a);
   Log INFO ("Using baseUrl: " ++ baseUrl a);
   Log INFO ("Using userName: " ++ userName a)].

(** The root of the filter API on an instance. *)
Definition api_root (baseUrl api_version : string) : string :=
  baseUrl ++ "/rest/api/" ++ api_version ++ "/filter/".

(** An event of the listing or of a detail fetch: a log record, or a GET
    of a URL under [root] sent with the headers [h]. *)
Definition request_under (root : string) (h : headers) (e : event) : Prop :=
  match e with
  | Log _ _ => True
  | Get url h' => h' = h /\ exists rest, url = root ++ rest
  | _ => False
  end.

(** The same constraint on the requests, leaving the other events free. *)
Definition authorized (root : string) (h : headers) (e : event) : Prop :=
  match e with
  | Get url h' => h' = h /\ exists rest, url = root ++ rest
  | _ => True
  end.

(** A 200 page on which an iteration raises [e]: the body is not JSON;
    or ['values' in data] is not defined for it; or the body holds
    ['values'] but cannot be subscripted with it; or the value under
    ['values'] cannot be iterated. *)
Definition raising_page (r : response) (e : exn) : Prop :=
  status_code r = 200 /\
  match json_body r with
  | None => e = JSONDecodeError
  | Some data =>
      match contains "values" data with
      | Err e' => e = e'
      | Ok false => False
      | Ok true =>
          match subscript data "values" with
          | Err e' => e = e'
          | Ok values =>
              match iter values with
              | Err e' => e = e'
              | Ok _ => False
              end
          end
      end
  end.

(** An event other than a WARNING record. *)
Definition no_warning (e : event) : Prop :=
  match e with
  | Log WARNING _ => False
  | _ => True
  end.

(** A record that is a grant of none of the three recognized types. *)
Definition other_grant (perm : json) : bool :=
  match perm with
  | JObj m => match type_of m with IsOther => true | _ => false end
  | _ => false
  end.

(** A value that is not a string. *)
Definition not_str (v : json) : bool :=
  match v with
  | JStr _ => false
  | _ => true
  end.

End Spec.

Import Spec.

(** ** Sample data *)

Module Examples.

Definition alice_and_eng : list json :=
  [JObj [("type", JStr "user"); ("user", JObj [("displayName", JStr "Alice")])];
   JObj [("type", JStr "group"); ("group", JObj [("name", JStr "Eng")])];
   JObj [("type", JStr "unknown")];
   JObj [("type", JStr "projectRole"); ("projectRole", JObj [("name", JStr "Dev")])];
   JObj []].

(** Three filter summaries. *)
Definition f1 : json := JObj [("id", JStr "10001"); ("name", JStr "Open bugs")].
Definition f2 : json := JObj [("id", JStr "10002"); ("name", JStr "My issues")].
Definition f3 : json := JObj [("id", JNum 10003); ("name", JStr "Backlog")].

(** A listing page, with and without the flag, and a failure. *)
Definition ok_page (values : list json) (last : bool) : response :=
  {| status_code := 200;
     text := "";
     json_body := Some (JObj [("values", JList values); ("isLast", JBool last)]) |}.

Definition unflagged_page (values : list json) : response :=
  {| status_code := 200;
     text := "";
     json_body := Some (JObj [("total", JNum 3); ("values", JList values)]) |}.

Definition not_found : response :=
  {| status_code := 404; text := "Not Found"; json_body := None |}.

(** A server that answers the listing requests with the pages of a script,
    in order of offset, the detail requests from a table, and anything else
    with a 404. *)
Fixpoint find_page (baseUrl api_version url : string) (i : nat) (pages : list response)
    : option response :=
  match pages with
  | [] => None
  | r :: pages' =>
      if String.eqb url (page_url baseUrl api_version i) then Some r
      else find_page baseUrl api_version url (S i) pages'
  end.

Fixpoint find_detail (baseUrl api_version url : string) (details : list (json * response))
    : option response :=
  match details with
  | [] => None
  | (filter_id, r) :: details' =>
      if String.eqb url (filter_url baseUrl api_version filter_id) then Some r
      else find_detail baseUrl api_version url details'
  end.

Definition scripted (baseUrl api_version : string) (pages : list response)
    (details : list (json * response)) : server :=
  fun url _ =>
    match find_page baseUrl api_version url 0 pages with
    | Some r => r
    | None => default not_found (find_detail baseUrl api_version url details)
    end.

Definition jira : string := "https://jira.example.org".

Definition two_pages : server :=
  scripted jira "3" [ok_page [f1; f2] false; ok_page [f3] true] [].

Definition second_page_fails : server :=
  scripted jira "3" [ok_page [f1; f2] false] [].

Definition second_page_unflagged : server :=
  scripted jira "3" [ok_page [f1] false; unflagged_page [f2; f3]] [].

Definition empty_first_page : server :=
  scripted jira "3" [ok_page [] false; ok_page [f3] true] [].

(** A server whose every page is empty and never the last. *)
Definition always_empty : server := fun _ _ => ok_page [] false.

(** Detail records: one never used, one with a last-used date. *)
Definition detail (name : string) : json :=
  JObj [("id", JStr "10001");
        ("name", JStr name);
        ("owner", JObj [("displayName", JStr "Dana Smith")]);
        ("sharePermissions", JList alice_and_eng);
        ("editPermissions", JList []);
        ("isWritable", JBool true)].

Definition used_detail (name : string) : json :=
  JObj [("name", JStr name);
        ("owner", JObj [("displayName", JStr "Dana Smith")]);
        ("sharePermissions", JList []);
        ("editPermissions", JList []);
        ("isWritable", JBool false);
        ("approximateLastUsed", JStr "2024-05-01T10:00:00.000+0000")].

(** The operator of a cloud instance. *)
Definition operator : answers :=
  {| instance_type := "cloud"; baseUrl := jira; userName := "admin"; secret := "s3cret" |}.

Definition ok_detail (d : json) : response :=
  {| status_code := 200; text := ""; json_body := Some d |}.

Definition forbidden : response :=
  {| status_code := 403; text := "Forbidden"; json_body := None |}.

(** Two filters listed, and every detail request refused. *)
Definition details_all_fail : server :=
  scripted jira "3" [ok_page [f1; f2] true] [].

(** Five filters listed; the details of the second and the fifth are
    refused. *)
Definition five_ids : list json :=
  [JStr "10001"; JStr "10002"; JNum 10003; JStr "10004"; JNum 10005].

Definition five_filters : server :=
  scripted jira "3"
    [ok_page (map (fun filter_id => JObj [("id", filter_id)]) five_ids) true]
    [(JStr "10001", ok_detail (detail "Open bugs"));
     (JStr "10002", forbidden);
     (JNum 10003, ok_detail (used_detail "Backlog"));
     (JStr "10004", ok_detail (detail "My issues"));
     (JNum 10005, not_found)].

(** A proxy answers the second listing request with an HTML page; a
    server answers it with a body whose ['values'] is a count. *)
Definition html_page : response :=
  {| status_code := 200; text := "<html>Sign in</html>"; json_body := None |}.

Definition count_page : response :=
  {| status_code := 200;
     text := "";
     json_body := Some (JObj [("values", JNum 2); ("isLast", JBool true)]) |}.

Definition second_page_html : server :=
  scripted jira "3" [ok_page [f1; f2] false; html_page] [].

Definition second_page_count : server :=
  scripted jira "3" [ok_page [f1] false; count_page] [].

(** The first listing request is refused: wrong credentials. *)
Definition unauthorized : response :=
  {| status_code := 401; text := "Unauthorized"; json_body := None |}.

Definition listing_refused : server := fun _ _ => unauthorized.

(** Three filters listed, the last without an ['id']; the details of the
    first two are served. *)
Definition third_without_id : server :=
  scripted jira "3"
    [ok_page [f1; f2; JObj [("name", JStr "Orphan")]] true]
    [(JStr "10001", ok_detail (detail "Open bugs"));
     (JStr "10002", ok_detail (detail "My issues"))].

(** Two filters listed; the detail of the second comes back as HTML. *)
Definition second_detail_html : server :=
  scripted jira "3"
    [ok_page [f1; f2] true]
    [(JStr "10001", ok_detail (detail "Open bugs"));
     (JStr "10002", html_page)].

(** A detail whose share permissions hold a group grant without name. *)
Definition detail_bad_grant : json :=
  JObj [("name", JStr "Broken");
        ("owner", JObj [("displayName", JStr "Dana Smith")]);
        ("sharePermissions",
         JList [JObj [("type", JStr "group"); ("group", JObj [])]]);
        ("editPermissions", JList []);
        ("isWritable", JBool true)].

(** A user grant whose account has no display name. *)
Definition nameless_user : list (string * json) :=
  [("type", JStr "user"); ("user", JObj [("displayName", JNull)])].

End Examples.

Import Examples.

(** ** Properties of [format_permissions] *)

Section FormatPermissions.

Lemma strings_of_strs (ss : list string) : strings_of (map JStr ss) = Ok ss.
Proof.
  induction ss as [|s ss IH]; [reflexivity|].
  simpl. rewrite IH. reflexivity.
Qed.

Lemma join_strs (sep : string) (ss : list string) :
  join sep (map JStr ss) = Ok (String.concat sep ss).
Proof. unfold join. rewrite strings_of_strs. reflexivity. Qed.

Lemma dict_get_obj m key d :
  dict_get (JObj m) key d = Ok (default d (assoc key m)).
Proof. unfold dict_get. destruct (assoc key m); reflexivity. Qed.

Lemma format_loop_step m perms acc :
  format_loop (JObj m :: perms) acc =
  match type_of m with
  | IsUser =>
      user ← subscript (JObj m) "user";
      name ← subscript user "displayName";
      format_loop perms (acc ++ [name])%list
  | IsGroup =>
      group ← subscript (JObj m) "group";
      name ← subscript group "name";
      format_loop perms (acc ++ [JStr ("Group: " ++ str name)])%list
  | IsRole =>
      role ← subscript (JObj m) "projectRole";
      name ← subscript role "name";
      format_loop perms (acc ++ [JStr ("Project Role: " ++ str name)])%list
  | IsOther => format_loop perms acc
  end.
Proof.
  cbn [format_loop]. rewrite !dict_get_obj. unfold type_of.
  cbn [mbind result_bind].
  destruct (eq_str _ "user"); [reflexivity|].
  destruct (eq_str _ "group"); [reflexivity|].
  destruct (eq_str _ "projectRole"); reflexivity.
Qed.

Lemma payload_name_subscript m key field name :
  payload_name m key field = Some name ->
  (payload ← subscript (JObj m) key; subscript payload field) = Ok (JStr name).
Proof.
  unfold payload_name, subscript. intros H.
  destruct (assoc key m) as [[| | | | |payload]|]; try discriminate.
  cbn [mbind result_bind].
  destruct (assoc field payload) as [[]|]; try discriminate.
  congruence.
Qed.

Lemma bind_Ok {A B} (r : result A) (f : A -> result B) a :
  r = Ok a -> (x ← r; f x) = f a.
Proof. intros ->. reflexivity. Qed.

Lemma bind_assoc {A B C} (r : result A) (f : A -> result B) (g : B -> result C) :
  (y ← (x ← r; f x); g y) = (x ← r; y ← f x; g y).
Proof. destruct r; reflexivity. Qed.

Lemma format_loop_decoded perms gs :
  Forall2 (fun perm g => decode_grant perm = Some g) perms gs ->
  forall acc,
    format_loop perms acc = Ok (acc ++ map JStr (concat (map contribution gs)))%list.
Proof.
  induction 1 as [|perm g perms gs Hg _ IH]; intros acc.
  - simpl. rewrite app_nil_r. reflexivity.
  - destruct perm as [| | | | |m]; try discriminate.
    rewrite format_loop_step. cbn [decode_grant] in Hg.
    destruct (type_of m);
      [destruct (payload_name m _ _) as [name|] eqn:Hname;
       try discriminate; injection Hg as <-;
       rewrite <- bind_assoc, (bind_Ok _ _ _ (payload_name_subscript _ _ _ _ Hname));
       rewrite IH; cbn [map concat contribution];
       rewrite map_app, <- app_assoc; reflexivity..|].
    injection Hg as <-. rewrite IH. reflexivity.
Qed.

Lemma contribution_other gs :
  Forall (eq OtherGrant) gs -> concat (map contribution gs) = [].
Proof. induction 1 as [|g gs <- _ IH]; [reflexivity|]. simpl. exact IH. Qed.

(** C2. When every record of the list is a permission grant (a record
    whose recognized type comes with its named payload, or a record of any
    other or no type), [format_permissions] returns the contributions of
    the grants, in input order, joined by a comma and a space: the display
    name for a user, [Group: ] and the name for a group, [Project Role: ]
    and the name for a project role, nothing for any other grant.  The
    empty list and a list of grants of other types give the empty string,
    and nothing is raised. *)
Theorem format_permissions_grants (perms : list json) (gs : list grant) :
  mapM decode_grant perms = Some gs ->
  format_permissions (JList perms) = Ok (formatted gs)
  /\ (perms = [] -> format_permissions (JList perms) = Ok "")
  /\ (Forall (eq OtherGrant) gs -> format_permissions (JList perms) = Ok "").
Proof.
  intros Hgs. apply mapM_Some in Hgs.
  assert (Hfmt : format_permissions (JList perms) = Ok (formatted gs)).
  { unfold format_permissions. cbn [iter mbind result_bind].
    rewrite (format_loop_decoded _ _ Hgs). cbn [app].
    apply join_strs. }
  split; [exact Hfmt|]. split.
  - intros ->. inversion Hgs; subst. exact Hfmt.
  - intros Hother. rewrite Hfmt. unfold formatted.
    rewrite (contribution_other _ Hother). reflexivity.
Qed.

Lemma format_permissions_grants_witness :
  format_permissions (JList alice_and_eng) = Ok "Alice, Group: Eng, Project Role: Dev".
Proof.
  exact (proj1 (format_permissions_grants alice_and_eng
                  [UserGrant "Alice"; GroupGrant "Eng"; OtherGrant; RoleGrant "Dev"; OtherGrant]
                  eq_refl)).
Defined.

Lemma format_loop_lacking perms :
  Exists (fun perm => lacks_payload perm = true) perms ->
  forall acc, exists e, format_loop perms acc = Err e.
Proof.
  induction 1 as [perm perms Hlack|perm perms _ IH]; intros acc.
  - destruct perm as [| | | | |m]; try discriminate.
    rewrite format_loop_step. cbn [lacks_payload] in Hlack.
    unfold has_payload, subscript in *.
    destruct (type_of m); try discriminate;
      (destruct (assoc _ m) as [[| | | | |payload]|]; cbn [mbind result_bind];
       [eauto..| |eauto];
       destruct (assoc _ payload); cbn [mbind result_bind]; [|eauto];
       exfalso; rewrite bool_decide_eq_true_2 in Hlack by eauto; discriminate).
  - destruct perm as [| | | | |m]; try (cbn; eauto; fail).
    rewrite format_loop_step.
    destruct (type_of m); [| | |apply IH];
      (destruct (subscript (JObj m) _) as [payload|]; cbn [mbind result_bind]; [|eauto];
       destruct (subscript payload _); cbn [mbind result_bind]; [apply IH|eauto]).
Qed.

(** C10. [format_permissions] raises on some inputs: whenever a grant of
    the list has type [user], [group] or [projectRole] and lacks the nested
    payload key of that type, the call ends in an exception, not in a
    string.  So a call that returns has met no such grant. *)
Theorem format_permissions_raises :
  (exists perms e, format_permissions (JList perms) = Err e)
  /\ (forall perms,
        Exists (fun perm => lacks_payload perm = true) perms ->
        exists e, format_permissions (JList perms) = Err e)
  /\ (forall perms s,
        format_permissions (JList perms) = Ok s ->
        Forall (fun perm => lacks_payload perm = false) perms).
Proof.
  assert (Hraise : forall perms,
            Exists (fun perm => lacks_payload perm = true) perms ->
            exists e, format_permissions (JList perms) = Err e).
  { intros perms Hlack. unfold format_permissions. cbn [iter mbind result_bind].
    destruct (format_loop_lacking _ Hlack []) as [e ->]. eauto. }
  split; [|split].
  - exists [JObj [("type", JStr "user")]], (KeyError "user"). reflexivity.
  - exact Hraise.
  - intros perms s Hok. apply Forall_forall. intros perm Hin.
    destruct (lacks_payload perm) eqn:Hlack; [|reflexivity].
    destruct (Hraise perms) as [e He]; [|congruence].
    apply Exists_exists. eauto.
Qed.

Lemma format_permissions_raises_witness :
  exists e,
    format_permissions
      (JList [JObj [("type", JStr "group"); ("group", JObj [("title", JStr "Eng")])]])
    = Err e.
Proof.
  apply (proj1 (proj2 format_permissions_raises)).
  apply Exists_cons_hd. reflexivity.
Defined.

End FormatPermissions.


(** ** Properties of the paging loop *)

Lemma requested_app t1 t2 : requested (t1 ++ t2) = (requested t1 ++ requested t2)%list.
Proof. apply omap_app. Qed.

Lemma logged_app lvl t1 t2 :
  logged lvl (t1 ++ t2) = (logged lvl t1 ++ logged lvl t2)%list.
Proof. apply omap_app. Qed.

Lemma written_app t1 t2 : written (t1 ++ t2) = (written t1 ++ written t2)%list.
Proof. apply omap_app. Qed.

Lemma printed_app t1 t2 : printed (t1 ++ t2) = (printed t1 ++ printed t2)%list.
Proof. apply omap_app. Qed.

Section Paging.

Variable srv : server.
Variables userName token baseUrl api_version : string.

Local Abbreviation h := (auth_headers userName token).
Local Abbreviation loop := (fun fuel st => paging_loop fuel srv h baseUrl api_version st).
Local Abbreviation answer := (fun st => srv (search_url baseUrl api_version (start_at st)) h).
Local Abbreviation page := (page_at srv userName token baseUrl api_version).
Local Abbreviation url := (page_url baseUrl api_version).
Local Abbreviation run := (fun fuel => get_jira_filters fuel srv userName token baseUrl api_version).

(** Once the flag is set the loop is over, whatever fuel is left. *)
Lemma paging_loop_done fuel st :
  truthy (is_last st) = true -> loop fuel st = ([], Done (filters st)).
Proof. intros H. destruct fuel; cbn [paging_loop]; rewrite H; reflexivity. Qed.

(** One iteration on a page the loop accepts. *)
Lemma paging_step st items last :
  truthy (is_last st) = false ->
  listing_page (answer st) items last ->
  exists t0,
    requested t0 = [search_url baseUrl api_version (start_at st)]
    /\ logged ERROR t0 = [] /\ written t0 = [] /\
    forall fuel,
      loop (S fuel) st =
      let r := loop fuel {| filters := (filters st ++ items)%list;
                            start_at := start_at st + 50;
                            is_last := last |} in
      ((t0 ++ r.1)%list, r.2).
Proof.
  intros Hnot (Hstatus & m & values & Hbody & Hvalues & Hiter & Hlast).
  eexists [_; _; _; _]. split; [|split; [|split]]; cycle 3.
  - intros fuel. cbn [paging_loop]. rewrite Hnot.
    cbv beta in *.
    cbn -[pretty str search_url String.append paging_loop dict_get].
    rewrite Hstatus.
    cbn -[pretty str search_url String.append paging_loop dict_get].
    unfold response_json. rewrite Hbody.
    cbn -[pretty str search_url String.append paging_loop dict_get].
    rewrite Hvalues.
    rewrite bool_decide_eq_true_2 by eauto.
    cbn -[pretty str search_url String.append paging_loop dict_get].
    rewrite Hiter.
    cbn -[pretty str search_url String.append paging_loop dict_get].
    rewrite dict_get_obj, Hlast. unfold max_results. reflexivity.
  - reflexivity.
  - reflexivity.
  - reflexivity.
Qed.

(** The last iteration on a page whose flag is set or absent. *)
Lemma paging_last st items last :
  truthy (is_last st) = false ->
  listing_page (answer st) items last ->
  truthy last = true ->
  exists t0,
    requested t0 = [search_url baseUrl api_version (start_at st)]
    /\ logged ERROR t0 = [] /\
    forall fuel, loop (S fuel) st = (t0, Done (filters st ++ items)%list).
Proof.
  intros Hnot Hpage Hlast.
  destruct (paging_step st items last Hnot Hpage) as (t0 & Hreq & Hlog & _ & Hrun).
  exists t0. split; [exact Hreq|]. split; [exact Hlog|].
  intros fuel. rewrite Hrun, paging_loop_done by exact Hlast.
  cbn. rewrite app_nil_r. reflexivity.
Qed.

(** The last iteration on a page that fails. *)
Lemma paging_fail st :
  truthy (is_last st) = false ->
  failing_page (answer st) ->
  exists t0 msg,
    requested t0 = [search_url baseUrl api_version (start_at st)]
    /\ logged ERROR t0 = [msg] /\
    forall fuel, loop (S fuel) st = (t0, Done (filters st)).
Proof.
  intros Hnot [Hstatus|(Hstatus & data & Hbody & Hvalues)].
  - eexists [_; _; _; _], _. split; [|split]; cycle 2.
    + intros fuel. cbn [paging_loop]. rewrite Hnot.
      cbv beta in *. apply Z.eqb_neq in Hstatus.
      cbn -[pretty str search_url String.append paging_loop Z.eqb].
      rewrite Hstatus. reflexivity.
    + reflexivity.
    + reflexivity.
  - eexists [_; _; _; _; _], _. split; [|split]; cycle 2.
    + intros fuel. cbn [paging_loop]. rewrite Hnot.
      cbv beta in *.
      cbn -[pretty str search_url String.append paging_loop contains].
      rewrite Hstatus.
      cbn -[pretty str search_url String.append paging_loop contains].
      unfold response_json. rewrite Hbody.
      cbn -[pretty str search_url String.append paging_loop contains].
      rewrite Hvalues. reflexivity.
    + reflexivity.
    + reflexivity.
Qed.

(** An iteration entered with the flag unset starts with a request for
    the page at the current offset. *)
Lemma paging_requests st fuel :
  truthy (is_last st) = false ->
  exists t o,
    loop (S fuel) st = (t, o)
    /\ search_url baseUrl api_version (start_at st) ∈ requested t.
Proof.
  intros Hnot. cbn [paging_loop]. rewrite Hnot.
  cbn -[pretty str search_url String.append paging_loop dict_get].
  eexists _, _. split; [reflexivity|].
  cbn -[pretty str search_url String.append]. apply list_elem_of_here.
Qed.

(** A run of pages that are not the last one: the loop asks for each of
    them in turn and carries on with their items accumulated. *)
Lemma paging_prefix (before : list (list json)) :
  forall st,
    truthy (is_last st) = false ->
    (forall i items,
        before !! i = Some items ->
        continuing_page
          (srv (search_url baseUrl api_version (start_at st + 50 * Z.of_nat i)) h) items) ->
    exists t0 st',
      requested t0 =
        map (fun i => search_url baseUrl api_version (start_at st + 50 * Z.of_nat i))
            (seq 0 (length before))
      /\ logged ERROR t0 = [] /\ written t0 = []
      /\ filters st' = (filters st ++ concat before)%list
      /\ start_at st' = start_at st + 50 * Z.of_nat (length before)
      /\ truthy (is_last st') = false
      /\ forall fuel,
           loop (length before + fuel)%nat st =
           ((t0 ++ (loop fuel st').1)%list, (loop fuel st').2).
Proof.
  induction before as [|p before IH]; intros st Hnot Hpages.
  - exists [], st. cbn [length seq map concat Nat.add app].
    rewrite app_nil_r, Z.mul_0_r, Z.add_0_r.
    repeat split; try reflexivity; try assumption.
    intros fuel. destruct (paging_loop fuel _ _ _ _ _). reflexivity.
  - destruct (Hpages 0%nat p eq_refl) as (last & Hpage & Hlast).
    cbn [Z.of_nat] in Hpage. rewrite Z.mul_0_r, Z.add_0_r in Hpage.
    destruct (paging_step st p last Hnot Hpage) as (t1 & Hreq1 & Hlog1 & Hwr1 & Hrun1).
    destruct (IH {| filters := (filters st ++ p)%list;
                    start_at := start_at st + 50;
                    is_last := last |} Hlast)
      as (t2 & st' & Hreq2 & Hlog2 & Hwr2 & Hfs & Hstart & Hnot' & Hrun2).
    { intros i items Hi. cbn [start_at].
      replace (start_at st + 50 + 50 * Z.of_nat i)
        with (start_at st + 50 * Z.of_nat (S i)) by lia.
      apply Hpages. exact Hi. }
    cbn [filters start_at] in *.
    exists (t1 ++ t2)%list, st'. repeat split.
    + rewrite requested_app, Hreq1, Hreq2. cbn [length seq map app].
      rewrite Z.mul_0_r, Z.add_0_r. f_equal.
      rewrite <- seq_shift, map_map. apply map_ext. intros i. f_equal. lia.
    + rewrite logged_app, Hlog1, Hlog2. reflexivity.
    + rewrite written_app, Hwr1, Hwr2. reflexivity.
    + rewrite Hfs. cbn [concat]. rewrite app_assoc. reflexivity.
    + rewrite Hstart. cbn [length]. lia.
    + exact Hnot'.
    + intros fuel. cbn [length Nat.add]. rewrite Hrun1, Hrun2.
      cbn [fst snd]. rewrite app_assoc. reflexivity.
Qed.

(** The same for a whole run, from the first request on. *)
Lemma get_jira_filters_prefix (before : list (list json)) :
  (forall i items, before !! i = Some items -> continuing_page (page i) items) ->
  exists t0 st',
    requested t0 = map url (seq 0 (length before))
    /\ logged ERROR t0 = [] /\ written t0 = []
    /\ filters st' = concat before
    /\ start_at st' = 50 * Z.of_nat (length before)
    /\ truthy (is_last st') = false
    /\ forall fuel,
         run (length before + fuel)%nat =
         ((t0 ++ (loop fuel st').1)%list, (loop fuel st').2).
Proof.
  intros Hpages.
  destruct (paging_prefix before
              {| filters := []; start_at := 0; is_last := JBool false |} eq_refl)
    as (t0 & st' & Hreq & Hlog & Hwr & Hfs & Hstart & Hnot & Hrun).
  { intros i items Hi. apply (Hpages i items Hi). }
  exists t0, st'. repeat split; assumption.
Qed.

(** The shape of every result below: pages that are not the last one,
    then one closing iteration. *)
Lemma get_jira_filters_closing (before : list (list json)) (P : list event -> Prop)
    (result : list json) :
  (forall i items, before !! i = Some items -> continuing_page (page i) items) ->
  (forall st,
      truthy (is_last st) = false ->
      start_at st = 50 * Z.of_nat (length before) ->
      filters st = concat before ->
      exists t1,
        requested t1 = [search_url baseUrl api_version (start_at st)]
        /\ P t1
        /\ forall fuel, loop (S fuel) st = (t1, Done result)) ->
  forall fuel,
    (length before < fuel)%nat ->
    exists t0 t1,
      run fuel = ((t0 ++ t1)%list, Done result)
      /\ requested (t0 ++ t1) = map url (seq 0 (S (length before)))
      /\ logged ERROR t0 = [] /\ P t1.
Proof.
  intros Hpages Hclose fuel Hfuel.
  destruct (get_jira_filters_prefix before Hpages)
    as (t0 & st' & Hreq & Hlog & _ & Hfs & Hstart & Hnot & Hrun).
  destruct (Hclose st' Hnot Hstart Hfs) as (t1 & Hreq1 & HP & Hrun1).
  exists t0, t1.
  replace fuel with (length before + S (fuel - S (length before)))%nat by lia.
  split; [|split; [|split]]; try assumption.
  - rewrite Hrun, Hrun1. reflexivity.
  - rewrite requested_app, Hreq, Hreq1, seq_S, map_app, Hstart. reflexivity.
Qed.

(** The answer to the request an iteration makes at offset [50 * i]. *)
Lemma answer_page st i :
  start_at st = 50 * Z.of_nat i -> answer st = page i.
Proof. intros Hstart. unfold page_at, page_url. rewrite Hstart. reflexivity. Qed.

Lemma well_formed_listing r values last :
  well_formed_page r values last -> listing_page r values (JBool last).
Proof.
  intros (Hstatus & m & Hbody & Hvalues & Hlast).
  split; [exact Hstatus|]. exists m, (JList values).
  rewrite Hlast. repeat split; assumption.
Qed.

(** C1. On a well-formed sequence of pages (each a 200 response with a
    ['values'] list and an ['isLast'] flag, the flag false on the pages
    [before] and true on the page after them) [get_jira_filters] returns
    the concatenation of the ['values'] lists in page order, having
    requested the pages at offsets 0, 50, ... one after the other and none
    beyond the first page whose flag is true. *)
Theorem get_jira_filters_pages (before : list (list json)) (final : list json) :
  (forall i values,
      before !! i = Some values -> well_formed_page (page i) values false) ->
  well_formed_page (page (length before)) final true ->
  forall fuel,
    (length before < fuel)%nat ->
    exists t,
      run fuel = (t, Done (concat (before ++ [final])))
      /\ requested t = map url (seq 0 (S (length before)))
      /\ logged ERROR t = [].
Proof.
  intros Hbefore Hfinal fuel Hfuel.
  destruct (get_jira_filters_closing before (fun t1 => logged ERROR t1 = [])
              (concat (before ++ [final]))) with (fuel := fuel)
    as (t0 & t1 & Hrun & Hreq & Hlog0 & Hlog1); try assumption.
  - intros i values Hi. exists (JBool false).
    split; [|reflexivity]. apply well_formed_listing, Hbefore, Hi.
  - intros st Hnot Hstart Hfs.
    destruct (paging_last st final (JBool true) Hnot) as (t1 & Hreq1 & Hlog1 & Hrun1);
      [rewrite (answer_page _ _ Hstart); apply well_formed_listing, Hfinal
      |reflexivity|].
    exists t1. repeat split; try assumption.
    intros fuel'. rewrite Hrun1, Hfs, concat_app. cbn [concat].
    rewrite app_nil_r. reflexivity.
  - exists (t0 ++ t1)%list. repeat split; try assumption.
    rewrite logged_app, Hlog0, Hlog1. reflexivity.
Qed.

(** A failing page after pages that are not the last one ends the run
    with what those pages held. *)
Lemma get_jira_filters_fails (before : list (list json)) :
  (forall i items, before !! i = Some items -> continuing_page (page i) items) ->
  failing_page (page (length before)) ->
  forall fuel,
    (length before < fuel)%nat ->
    exists t msg,
      run fuel = (t, Done (concat before))
      /\ requested t = map url (seq 0 (S (length before)))
      /\ logged ERROR t = [msg].
Proof.
  intros Hbefore Hfail fuel Hfuel.
  destruct (get_jira_filters_closing before (fun t1 => exists msg, logged ERROR t1 = [msg])
              (concat before)) with (fuel := fuel)
    as (t0 & t1 & Hrun & Hreq & Hlog0 & msg & Hlog1); try assumption.
  - intros st Hnot Hstart Hfs.
    destruct (paging_fail st Hnot) as (t1 & msg & Hreq1 & Hlog1 & Hrun1);
      [rewrite (answer_page _ _ Hstart); exact Hfail|].
    exists t1. split; [exact Hreq1|]. split; [eauto|].
    intros fuel'. rewrite Hrun1, Hfs. reflexivity.
  - exists (t0 ++ t1)%list, msg. repeat split; try assumption.
    rewrite logged_app, Hlog0, Hlog1. reflexivity.
Qed.

(** C3 (amended). When the page after the pages [before] fails (a status
    other than 200, or a 200 response whose JSON body is an object, a list
    or a string that does not hold ['values']) the run ends at that page:
    it returns the items of the pages before it and nothing else, raises
    nothing, logs the error and requests no further page. *)
Theorem get_jira_filters_partial (before : list (list json)) :
  (forall i items, before !! i = Some items -> continuing_page (page i) items) ->
  failing_page (page (length before)) ->
  forall fuel,
    (length before < fuel)%nat ->
    exists t msg,
      run fuel = (t, Done (concat before))
      /\ requested t = map url (seq 0 (S (length before)))
      /\ logged ERROR t = [msg].
Proof. exact (get_jira_filters_fails before). Qed.

(** C9. A 200 response with a ['values'] field and no ['isLast'] field is
    taken as the last page: its values are added to the result, no further
    page is requested, no error is logged and nothing is raised. *)
Theorem get_jira_filters_no_flag (before : list (list json))
    (m : list (string * json)) (values : json) (items : list json) :
  (forall i items, before !! i = Some items -> continuing_page (page i) items) ->
  status_code (page (length before)) = 200 ->
  json_body (page (length before)) = Some (JObj m) ->
  assoc "values" m = Some values ->
  iter values = Ok items ->
  assoc "isLast" m = None ->
  forall fuel,
    (length before < fuel)%nat ->
    exists t,
      run fuel = (t, Done (concat before ++ items)%list)
      /\ requested t = map url (seq 0 (S (length before)))
      /\ logged ERROR t = [].
Proof.
  intros Hbefore Hstatus Hbody Hvalues Hiter Hflag fuel Hfuel.
  destruct (get_jira_filters_closing before (fun t1 => logged ERROR t1 = [])
              (concat before ++ items)%list) with (fuel := fuel)
    as (t0 & t1 & Hrun & Hreq & Hlog0 & Hlog1); try assumption.
  - intros st Hnot Hstart Hfs.
    destruct (paging_last st items (JBool true) Hnot) as (t1 & Hreq1 & Hlog1 & Hrun1);
      [rewrite (answer_page _ _ Hstart)|reflexivity|].
    { split; [exact Hstatus|]. exists m, values. rewrite Hflag. repeat split; assumption. }
    exists t1. repeat split; try assumption.
    intros fuel'. rewrite Hrun1, Hfs. reflexivity.
  - exists (t0 ++ t1)%list. repeat split; try assumption.
    rewrite logged_app, Hlog0, Hlog1. reflexivity.
Qed.

(** C4 (amended). The loop ends at the first page whose ['isLast'] flag is
    true or absent, or that fails.  An empty ['values'] list does not end
    it: after a page with no values and a false flag the next page, 50
    further, is requested. *)
Theorem paging_stops_on_flag_or_failure (before : list (list json)) :
  (forall i items, before !! i = Some items -> continuing_page (page i) items) ->
  (forall items last,
      listing_page (page (length before)) items last ->
      truthy last = true ->
      forall fuel,
        (length before < fuel)%nat ->
        exists t,
          run fuel = (t, Done (concat before ++ items)%list)
          /\ requested t = map url (seq 0 (S (length before))))
  /\ (failing_page (page (length before)) ->
      forall fuel,
        (length before < fuel)%nat ->
        exists t,
          run fuel = (t, Done (concat before))
          /\ requested t = map url (seq 0 (S (length before))))
  /\ (forall last,
        listing_page (page (length before)) [] last ->
        truthy last = false ->
        forall fuel,
          (S (length before) < fuel)%nat ->
          exists t o,
            run fuel = (t, o) /\ url (S (length before)) ∈ requested t).
Proof.
  intros Hbefore. split; [|split].
  - intros items last Hpage Hlast fuel Hfuel.
    destruct (get_jira_filters_closing before (fun _ => True)
                (concat before ++ items)%list) with (fuel := fuel)
      as (t0 & t1 & Hrun & Hreq & _); try assumption; [|eauto].
    intros st Hnot Hstart Hfs.
    destruct (paging_last st items last Hnot) as (t1 & Hreq1 & _ & Hrun1);
      [rewrite (answer_page _ _ Hstart); exact Hpage|exact Hlast|].
    exists t1. repeat split; try assumption.
    intros fuel'. rewrite Hrun1, Hfs. reflexivity.
  - intros Hfail fuel Hfuel.
    destruct (get_jira_filters_fails before Hbefore Hfail fuel Hfuel)
      as (t & _ & Hrun & Hreq & _).
    eauto.
  - intros last Hpage Hlast fuel Hfuel.
    destruct (get_jira_filters_prefix (before ++ [[]]))
      as (t0 & st' & _ & _ & _ & _ & Hstart & Hnot & Hrun).
    { intros i items Hi. destruct (decide (i < length before)%nat) as [Hlt|Hge].
      - rewrite lookup_app_l in Hi by exact Hlt. apply Hbefore, Hi.
      - rewrite lookup_app_r in Hi by lia.
        destruct (i - length before)%nat as [|j] eqn:Hj; [|destruct j; discriminate].
        injection Hi as <-. replace i with (length before) by lia.
        exists last. split; assumption. }
    rewrite length_app in Hrun, Hstart. cbn [length] in Hrun, Hstart.
    replace fuel with (length before + 1 + S (fuel - length before - 2))%nat by lia.
    destruct (paging_requests st' (fuel - length before - 2) Hnot)
      as (t1 & o & Hrun1 & Hin).
    exists (t0 ++ t1)%list, o. rewrite Hrun, Hrun1. split; [reflexivity|].
    rewrite requested_app. apply elem_of_app. right.
    unfold page_url. rewrite Hstart in Hin.
    replace (S (length before)) with (length before + 1)%nat by lia. exact Hin.
Qed.

End Paging.

(** A server that keeps answering with pages that are not the last one
    keeps the loop going: no amount of fuel lets the run finish. *)
Lemma paging_loop_always_empty (userName token baseUrl api_version : string)
    (fuel : nat) :
  forall st,
    truthy (is_last st) = false ->
    (paging_loop fuel always_empty (auth_headers userName token)
       baseUrl api_version st).2 = OutOfFuel.
Proof.
  induction fuel as [|fuel IH]; intros st Hnot.
  - cbn [paging_loop]. rewrite Hnot. reflexivity.
  - destruct (paging_step always_empty userName token baseUrl api_version
                st [] (JBool false) Hnot)
      as (t0 & _ & _ & _ & Hrun).
    { split; [reflexivity|]. eexists _, _. repeat split; reflexivity. }
    rewrite Hrun. cbn [snd]. apply IH. reflexivity.
Qed.

Lemma get_jira_filters_always_empty (userName token baseUrl api_version : string)
    (fuel : nat) :
  (get_jira_filters fuel always_empty userName token baseUrl api_version).2 = OutOfFuel.
Proof. apply paging_loop_always_empty. reflexivity. Qed.

(** *** The results on sample runs *)

Lemma get_jira_filters_pages_witness :
  exists t,
    get_jira_filters 2 two_pages "admin" "s3cret" jira "3"
    = (t, Done (concat ([[f1; f2]] ++ [[f3]])))
    /\ requested t = map (page_url jira "3") (seq 0 2)
    /\ logged ERROR t = [].
Proof.
  apply (get_jira_filters_pages two_pages "admin" "s3cret" jira "3" [[f1; f2]] [f3]).
  - intros [|[|i]] values Hi; try discriminate. injection Hi as <-.
    split; [reflexivity|].
    exists [("values", JList [f1; f2]); ("isLast", JBool false)].
    repeat split; reflexivity.
  - split; [reflexivity|].
    exists [("values", JList [f3]); ("isLast", JBool true)].
    repeat split; reflexivity.
  - cbn [length]. lia.
Defined.

Lemma get_jira_filters_partial_witness :
  exists t msg,
    get_jira_filters 2 second_page_fails "admin" "s3cret" jira "3"
    = (t, Done (concat [[f1; f2]]))
    /\ requested t = map (page_url jira "3") (seq 0 2)
    /\ logged ERROR t = [msg].
Proof.
  apply (get_jira_filters_partial second_page_fails "admin" "s3cret" jira "3" [[f1; f2]]).
  - intros [|[|i]] items Hi; try discriminate. injection Hi as <-.
    exists (JBool false). split; [|reflexivity].
    split; [reflexivity|].
    exists [("values", JList [f1; f2]); ("isLast", JBool false)], (JList [f1; f2]).
    repeat split; reflexivity.
  - left. vm_compute. discriminate.
  - cbn [length]. lia.
Defined.

(** The second page of [second_page_html] is a 200 response without a
    ['values'] field, its body not being JSON at all: the run does not
    return the items of the first page, it ends in the exception of
    [response.json()]. *)
Lemma html_page_loses_partial_result :
  status_code (page_at second_page_html "admin" "s3cret" jira "3" 1) = 200
  /\ json_body (page_at second_page_html "admin" "s3cret" jira "3" 1) = None
  /\ continuing_page (page_at second_page_html "admin" "s3cret" jira "3" 0) [f1; f2]
  /\ (get_jira_filters 2 second_page_html "admin" "s3cret" jira "3").2
     = Raise JSONDecodeError
  /\ (get_jira_filters 2 second_page_html "admin" "s3cret" jira "3").2
     <> Done [f1; f2].
Proof.
  split; [reflexivity|]. split; [reflexivity|]. split; [|split].
  - exists (JBool false). split; [|reflexivity].
    split; [reflexivity|].
    exists [("values", JList [f1; f2]); ("isLast", JBool false)], (JList [f1; f2]).
    repeat split; reflexivity.
  - vm_compute. reflexivity.
  - vm_compute. discriminate.
Qed.

Lemma get_jira_filters_no_flag_witness :
  exists t,
    get_jira_filters 2 second_page_unflagged "admin" "s3cret" jira "3"
    = (t, Done (concat [[f1]] ++ [f2; f3])%list)
    /\ requested t = map (page_url jira "3") (seq 0 2)
    /\ logged ERROR t = [].
Proof.
  apply (get_jira_filters_no_flag second_page_unflagged "admin" "s3cret" jira "3" [[f1]]
           [("total", JNum 3); ("values", JList [f2; f3])] (JList [f2; f3]) [f2; f3]).
  - intros [|[|i]] items Hi; try discriminate. injection Hi as <-.
    exists (JBool false). split; [|reflexivity].
    split; [reflexivity|].
    exists [("values", JList [f1]); ("isLast", JBool false)], (JList [f1]).
    repeat split; reflexivity.
  - reflexivity.
  - reflexivity.
  - reflexivity.
  - reflexivity.
  - reflexivity.
  - cbn [length]. lia.
Defined.

Lemma paging_stops_on_flag_or_failure_witness :
  exists t o,
    get_jira_filters 2 empty_first_page "admin" "s3cret" jira "3" = (t, o)
    /\ page_url jira "3" 1 ∈ requested t.
Proof.
  apply (proj2 (proj2 (paging_stops_on_flag_or_failure empty_first_page
                         "admin" "s3cret" jira "3" []
                         ltac:(intros i items Hi; discriminate Hi)))
           (JBool false)).
  - split; [reflexivity|].
    exists [("values", JList []); ("isLast", JBool false)], (JList []).
    repeat split; reflexivity.
  - reflexivity.
  - cbn [length]. lia.
Defined.

(** The first page of [empty_first_page] has no values and a false flag,
    and the run does not end there: it goes on to request the page at
    offset 50 and returns what that page holds. *)
Lemma empty_page_does_not_stop :
  well_formed_page (page_at empty_first_page "admin" "s3cret" jira "3" 0) [] false
  /\ (get_jira_filters 2 empty_first_page "admin" "s3cret" jira "3").2 = Done [f3]
  /\ requested (get_jira_filters 2 empty_first_page "admin" "s3cret" jira "3").1
     = [page_url jira "3" 0; page_url jira "3" 1]
  /\ requested (get_jira_filters 2 empty_first_page "admin" "s3cret" jira "3").1
     <> [page_url jira "3" 0].
Proof.
  split; [|split; [|split]].
  - split; [reflexivity|].
    exists [("values", JList []); ("isLast", JBool false)].
    repeat split; reflexivity.
  - vm_compute. reflexivity.
  - vm_compute. reflexivity.
  - vm_compute. discriminate.
Qed.

(** ** Properties of the report writer *)

Section Report.

Lemma filter_info_fields d info :
  filter_info d = Ok info ->
  exists name owner share edit writable last_used,
    info = [("Filter name", name); ("Owner", owner);
            ("Share Permissions", share); ("Edit Permissions", edit);
            ("Is Writable", writable); ("Approximate Last Used", last_used)]
    /\ dict_get d "approximateLastUsed" JNull = Ok last_used.
Proof.
  unfold filter_info. intros H.
  repeat match type of H with
         | (?r ≫= _) = Ok _ =>
             destruct r eqn:?; cbn [mbind result_bind] in H; [|discriminate]
         end.
  injection H as <-. eauto 10.
Qed.

Lemma report_loop_present details :
  forall data infos,
    Forall2 (fun d info => filter_info d = Ok info) (List.filter present details) infos ->
    report_loop details data = Ok (data ++ infos)%list.
Proof.
  induction details as [|d details IH]; intros data infos Hinfos.
  - inversion Hinfos; subst. cbn. rewrite app_nil_r. reflexivity.
  - cbn [report_loop List.filter] in *. unfold present in Hinfos at 1.
    destruct (is_None d); cbn [negb] in Hinfos.
    + apply IH, Hinfos.
    + inversion Hinfos as [|? info ? infos' Hinfo Hrest]; subst.
      rewrite Hinfo. cbn [mbind result_bind].
      rewrite (IH _ _ Hrest), <- app_assoc. reflexivity.
Qed.

Lemma reportable_infos details :
  Forall reportable details ->
  exists infos, Forall2 (fun d info => filter_info d = Ok info) details infos.
Proof.
  induction 1 as [|d details [info Hinfo] _ [infos IH]].
  - exists []. constructor.
  - exists (info :: infos). constructor; assumption.
Qed.

Lemma frame_columns_report (infos : list (list (string * json))) cols :
  Forall (fun info => map fst info = report_columns) infos ->
  cols = report_columns \/ (cols = [] /\ infos <> []) ->
  fold_left (fun cols record => add_keys cols (map fst record)) infos cols
  = report_columns.
Proof.
  intros Hinfos. revert cols.
  induction Hinfos as [|info infos Hinfo _ IH]; intros cols [->|[-> Hne]].
  - reflexivity.
  - congruence.
  - cbn [fold_left]. rewrite Hinfo. apply IH. left. reflexivity.
  - cbn [fold_left]. rewrite Hinfo. apply IH. left. reflexivity.
Qed.

Lemma make_frame_report (infos : list (list (string * json))) :
  infos <> [] ->
  Forall (fun info => exists d, filter_info d = Ok info) infos ->
  make_frame infos = {| columns := report_columns; rows := map (map snd) infos |}.
Proof.
  intros Hne Hinfos. unfold make_frame, frame_columns.
  rewrite frame_columns_report; cycle 1.
  { eapply Forall_impl; [exact Hinfos|]. intros info [d Hd].
    apply filter_info_fields in Hd as (? & ? & ? & ? & ? & ? & -> & _).
    reflexivity. }
  { right. split; [reflexivity|exact Hne]. }
  f_equal. apply map_ext_in. intros info Hin.
  rewrite Forall_forall in Hinfos.
  destruct (Hinfos info) as [d Hd]; [apply list_elem_of_In, Hin|].
  apply filter_info_fields in Hd as (? & ? & ? & ? & ? & ? & -> & _).
  reflexivity.
Qed.

Lemma Forall2_infos (details : list json) infos :
  Forall2 (fun d info => filter_info d = Ok info) details infos ->
  Forall (fun info => exists d, filter_info d = Ok info) infos.
Proof. induction 1; constructor; eauto. Qed.

(** What [save_filters_to_csv] does when a row can be built from every
    detail that is not [None] and there is at least one. *)
Lemma save_report details infos fname :
  Forall2 (fun d info => filter_info d = Ok info) (List.filter present details) infos ->
  infos <> [] ->
  save_filters_to_csv details fname
  = ([Log INFO ("Saving data to CSV: " ++ fname);
      ToCsv fname (report_columns :: map (map (fun kv => cell_text kv.2)) infos)],
     Done tt).
Proof.
  intros Hinfos Hne. unfold save_filters_to_csv.
  destruct details as [|d details].
  { inversion Hinfos; subst. congruence. }
  rewrite bool_decide_eq_false_2 by discriminate.
  rewrite (report_loop_present _ _ _ Hinfos).
  unfold to_csv, log, emit. cbn [app lift mbind M_bind mret M_ret fst snd].
  rewrite make_frame_report by eauto using Forall2_infos.
  cbn [columns rows]. rewrite map_map.
  rewrite (map_ext _ (map (fun kv : string * json => cell_text kv.2)));
    [reflexivity|].
  intros info. apply map_map.
Qed.

Lemma row_of_info d info :
  filter_info d = Ok info -> row_of d = map (fun kv => cell_text kv.2) info.
Proof. unfold row_of. intros ->. reflexivity. Qed.

(** C8. In the file written for details from which rows can be built, the
    row of a filter without the ['approximateLastUsed'] key has an empty
    Approximate Last Used cell, the last of its six: neither the text
    [None] nor the text [null]. *)
Theorem absent_last_used_is_empty (filter_details : list json) (fname : string)
    (i : nat) (m : list (string * json)) :
  Forall reportable (List.filter present filter_details) ->
  List.filter present filter_details !! i = Some (JObj m) ->
  assoc "approximateLastUsed" m = None ->
  exists t records row,
    save_filters_to_csv filter_details fname = (t, Done tt)
    /\ written t = [(fname, records)]
    /\ records !! 0%nat = Some report_columns
    /\ report_columns !! 5%nat = Some "Approximate Last Used"
    /\ records !! S i = Some row
    /\ length row = 6%nat
    /\ row !! 5%nat = Some ""
    /\ row !! 5%nat <> Some "None" /\ row !! 5%nat <> Some "null".
Proof.
  intros Hdetails Hi Habsent.
  destruct (reportable_infos _ Hdetails) as [infos Hinfos].
  destruct (Forall2_lookup_l _ _ _ _ _ Hinfos Hi) as (info & Hinfo & Hrow).
  assert (Hne : infos <> []) by (intros ->; discriminate).
  apply filter_info_fields in Hrow
    as (name & owner & share & edit & writable & last_used & -> & Hlast).
  rewrite dict_get_obj, Habsent in Hlast. cbn [default] in Hlast. injection Hlast as <-.
  exists [Log INFO ("Saving data to CSV: " ++ fname);
          ToCsv fname (report_columns :: map (map (fun kv => cell_text kv.2)) infos)],
    (report_columns :: map (map (fun kv => cell_text kv.2)) infos),
    [cell_text name; cell_text owner; cell_text share; cell_text edit;
     cell_text writable; cell_text JNull].
  split; [apply (save_report _ _ _ Hinfos Hne)|].
  split; [reflexivity|]. split; [reflexivity|]. split; [reflexivity|].
  split.
  { change ((map (fun kv : string * json => cell_text kv.2) <$> infos) !! i = Some
              [cell_text name; cell_text owner; cell_text share; cell_text edit;
               cell_text writable; cell_text JNull]).
    rewrite list_lookup_fmap, Hinfo. reflexivity. }
  repeat split; cbn; discriminate.
Qed.

Lemma absent_last_used_is_empty_witness :
  exists t records row,
    save_filters_to_csv [used_detail "Backlog"; JNull; detail "Open bugs"] filename
    = (t, Done tt)
    /\ written t = [(filename, records)]
    /\ records !! 0%nat = Some report_columns
    /\ report_columns !! 5%nat = Some "Approximate Last Used"
    /\ records !! 2%nat = Some row
    /\ length row = 6%nat
    /\ row !! 5%nat = Some ""
    /\ row !! 5%nat <> Some "None" /\ row !! 5%nat <> Some "null".
Proof.
  eapply (absent_last_used_is_empty
            [used_detail "Backlog"; JNull; detail "Open bugs"] filename 1).
  - repeat constructor; eexists; vm_compute; reflexivity.
  - reflexivity.
  - reflexivity.
Defined.

(** On the empty list the writer logs its warning and writes nothing. *)
Lemma save_filters_to_csv_empty fname :
  save_filters_to_csv [] fname = ([Log WARNING "No filter details to save."], Done tt).
Proof. reflexivity. Qed.

(** On a list that is not empty and holds nothing but [None], the loop
    leaves [data] empty, and the writer goes on to write the empty frame
    without a warning. *)
Lemma report_loop_all_none details :
  forallb is_None details = true -> forall data, report_loop details data = Ok data.
Proof.
  induction details as [|d details IH]; intros Hnone data; [reflexivity|].
  cbn [forallb report_loop] in *. apply andb_prop in Hnone as [-> Hnone].
  apply IH, Hnone.
Qed.

Lemma save_filters_to_csv_all_none details fname :
  details <> [] ->
  forallb is_None details = true ->
  save_filters_to_csv details fname
  = ([Log INFO ("Saving data to CSV: " ++ fname); ToCsv fname [[]]], Done tt).
Proof.
  intros Hne Hnone. unfold save_filters_to_csv.
  rewrite bool_decide_eq_false_2 by exact Hne.
  rewrite (report_loop_all_none _ Hnone). reflexivity.
Qed.

(** C7 (the code at the failing input). Given the one-element list
    [[None]], whose details are all filtered out, the writer logs no
    warning and writes the file, with an empty header as its only record. *)
Theorem save_filters_to_csv_only_none :
  save_filters_to_csv [JNull] filename
  = ([Log INFO "Saving data to CSV: jira_filters.csv"; ToCsv filename [[]]], Done tt)
  /\ logged WARNING (save_filters_to_csv [JNull] filename).1 = []
  /\ written (save_filters_to_csv [JNull] filename).1 = [(filename, [[]])].
Proof. repeat split. Qed.

End Report.

(** ** Properties of a whole run *)

Section Main.

(** *** Nothing before the writer touches a file *)

Lemma writes_nothing_bind {A B} (m : M A) (f : A -> M B) :
  writes_nothing m -> (forall a, writes_nothing (f a)) -> writes_nothing (m ≫= f).
Proof.
  unfold writes_nothing. intros Hm Hf.
  destruct m as [t [a| |]]; cbn [mbind M_bind fst snd] in *.
  - rewrite written_app, Hm, Hf. reflexivity.
  - exact Hm.
  - exact Hm.
Qed.

Lemma writes_nothing_lift {A} (r : result A) : writes_nothing (lift r).
Proof. destruct r; reflexivity. Qed.

Lemma writes_nothing_json r : writes_nothing (response_json r).
Proof. unfold response_json. destruct (json_body r); reflexivity. Qed.

Ltac quiet :=
  repeat first
    [ apply writes_nothing_lift
    | apply writes_nothing_json
    | reflexivity
    | apply writes_nothing_bind; [|intros ?]
    | match goal with
      | |- writes_nothing (if ?b then _ else _) => destruct b
      end ].

Lemma paging_loop_writes_nothing srv h baseUrl api_version fuel :
  forall st, writes_nothing (paging_loop fuel srv h baseUrl api_version st).
Proof.
  induction fuel as [|fuel IH]; intros st; cbn [paging_loop];
    destruct (truthy (is_last st)); try reflexivity.
  quiet. apply IH.
Qed.

Lemma fetch_filter_details_writes_nothing srv filter_id h baseUrl api_version :
  writes_nothing (fetch_filter_details srv filter_id h baseUrl api_version).
Proof. unfold fetch_filter_details. quiet. Qed.

(** *** One detail fetch *)

Lemma fetch_filter_details_failed srv filter_id h baseUrl api_version :
  fetched (srv (filter_url baseUrl api_version filter_id) h) = false ->
  exists t msg,
    fetch_filter_details srv filter_id h baseUrl api_version = (t, Done JNull)
    /\ logged ERROR t = [msg].
Proof.
  unfold fetched, fetch_filter_details. intros Hstatus.
  cbn -[pretty str filter_url String.append Z.eqb].
  rewrite Hstatus. eexists _, _. split; reflexivity.
Qed.

Lemma fetch_filter_details_fetched srv filter_id h baseUrl api_version d :
  fetched (srv (filter_url baseUrl api_version filter_id) h) = true ->
  json_body (srv (filter_url baseUrl api_version filter_id) h) = Some d ->
  (fetch_filter_details srv filter_id h baseUrl api_version).2 = Done d.
Proof.
  unfold fetched, fetch_filter_details, response_json. intros Hstatus Hbody.
  cbn -[pretty str filter_url String.append Z.eqb].
  rewrite Hstatus. cbn -[pretty str filter_url String.append Z.eqb].
  rewrite Hbody. reflexivity.
Qed.

(** *** The order in which the futures are yielded *)

Lemma yield_order_map {A B} (f : A -> B) n :
  forall schedule pending,
    yield_order n schedule (map f pending) = map f (yield_order n schedule pending).
Proof.
  induction n as [|n IH]; intros schedule pending; [reflexivity|].
  cbn [yield_order]. rewrite length_map.
  change (map f pending) with (f <$> pending).
  rewrite list_lookup_fmap.
  destruct (pending !! _) as [x|]; [|reflexivity].
  cbn [fmap option_fmap option_map map]. rewrite <- list_fmap_delete.
  f_equal. apply IH.
Qed.

Lemma as_completed_map {A B} (f : A -> B) schedule futures :
  as_completed schedule (map f futures) = map f (as_completed schedule futures).
Proof. unfold as_completed. rewrite length_map. apply yield_order_map. Qed.

Lemma yield_order_perm {A} n :
  forall schedule (pending : list A),
    length pending = n -> yield_order n schedule pending ≡ₚ pending.
Proof.
  induction n as [|n IH]; intros schedule pending Hlen.
  - destruct pending; [reflexivity|discriminate].
  - cbn [yield_order].
    destruct (lookup_lt_is_Some_2 pending (hd 0%nat schedule `mod` length pending))
      as [x Hx].
    { apply Nat.mod_upper_bound. lia. }
    rewrite Hx. etransitivity; [|symmetry; apply (delete_Permutation _ _ _ Hx)].
    constructor. apply IH.
    rewrite length_delete by eauto. lia.
Qed.

(** Every future is yielded exactly once. *)
Lemma as_completed_perm {A} schedule (futures : list A) :
  as_completed schedule futures ≡ₚ futures.
Proof. apply yield_order_perm. reflexivity. Qed.

Lemma filter_length_perm {A} (f : A -> bool) (l l' : list A) :
  l ≡ₚ l' -> length (List.filter f l) = length (List.filter f l').
Proof.
  induction 1 as [|x l l' _ IH|x y l|l l' l'' _ IH1 _ IH2]; cbn [List.filter].
  - reflexivity.
  - destruct (f x); cbn [length]; congruence.
  - destruct (f x), (f y); reflexivity.
  - congruence.
Qed.

(** *** The pool *)

Section Pool.

Variables (srv : server) (a : answers).

Local Abbreviation h := (auth_headers (userName a) (secret a)).
Local Abbreviation fetch :=
  (fun filter_id => fetch_filter_details srv filter_id h (baseUrl a) (api_version_of a)).
Local Abbreviation good :=
  (fun filter_id => implb (fetched (detail_at srv a filter_id))
                          (usable (detail_at srv a filter_id))).
Local Abbreviation succeeded := (fun filter_id => fetched (detail_at srv a filter_id)).
Local Abbreviation detail_of := (fun filter_id => body (detail_at srv a filter_id)).

Lemma usable_body r :
  usable r = true ->
  json_body r = Some (body r) /\ present (body r) = true /\ reportable (body r).
Proof.
  unfold usable, body, reportable. destruct (json_body r) as [d|]; [|discriminate].
  intros [Hpresent Hinfo]%andb_prop. cbn [default].
  destruct (filter_info d) as [info|] eqn:Hd; [|discriminate].
  repeat split; [exact Hpresent|exists info; exact Hd].
Qed.

Lemma collect_fetches ids :
  forallb good ids = true ->
  forall filter_details,
    collect (map (fun filter_id => (fetch filter_id).2) ids) filter_details
    = mret (filter_details ++ map detail_of (List.filter succeeded ids))%list.
Proof.
  induction ids as [|filter_id ids IH]; intros Hgood filter_details.
  - cbn. rewrite app_nil_r. reflexivity.
  - cbn [forallb] in Hgood. apply andb_prop in Hgood as [Hid Hgood].
    cbn [map List.filter]. destruct (fetched (detail_at srv a filter_id)) eqn:Hfetched.
    + cbn [implb] in Hid. apply usable_body in Hid as (Hbody & Hpresent & _).
      rewrite (fetch_filter_details_fetched _ _ _ _ _ _ Hfetched Hbody).
      cbn [collect]. unfold present in Hpresent. rewrite Hpresent.
      rewrite IH by exact Hgood. cbn [map]. rewrite <- app_assoc. reflexivity.
    + destruct (fetch_filter_details_failed _ _ _ _ _ Hfetched) as (t & msg & -> & _).
      cbn [snd collect is_None negb]. apply IH, Hgood.
Qed.

Lemma fetches_write_nothing ids :
  written (concat (map (fun filter_id => (fetch filter_id).1) ids)) = [].
Proof.
  induction ids as [|filter_id ids IH]; [reflexivity|].
  cbn [map concat]. rewrite written_app, IH, app_nil_r.
  apply fetch_filter_details_writes_nothing.
Qed.

Lemma forallb_perm {A} (f : A -> bool) (l l' : list A) :
  l ≡ₚ l' -> forallb f l = true -> forallb f l' = true.
Proof.
  intros Hperm. rewrite !forallb_forall. intros Hall x Hin.
  apply Hall. eapply Permutation_in; [symmetry; exact Hperm|exact Hin].
Qed.

(** The pool returns the bodies of the successful fetches, in the order
    their futures are yielded, and writes nothing. *)
Lemma fetch_all_succeeded schedule filters ids :
  submitted filters = (ids, None) ->
  forallb good ids = true ->
  exists t,
    fetch_all srv schedule filters h (baseUrl a) (api_version_of a)
    = (t, Done (map detail_of (List.filter succeeded (as_completed schedule ids))))
    /\ written t = [].
Proof.
  intros Hsubmitted Hgood. unfold fetch_all. rewrite Hsubmitted.
  rewrite as_completed_map.
  rewrite !map_map.
  rewrite collect_fetches
    by (eapply forallb_perm; [symmetry; apply as_completed_perm|exact Hgood]).
  eexists. split.
  - cbn [mbind M_bind mret M_ret fst snd app]. rewrite app_nil_r. reflexivity.
  - apply fetches_write_nothing.
Qed.

Lemma details_reportable ids :
  forallb good ids = true ->
  List.filter present (map detail_of (List.filter succeeded ids))
  = map detail_of (List.filter succeeded ids)
  /\ Forall reportable (map detail_of (List.filter succeeded ids)).
Proof.
  induction ids as [|filter_id ids IH]; intros Hgood; [split; [reflexivity|constructor]|].
  cbn [forallb] in Hgood. apply andb_prop in Hgood as [Hid Hgood].
  destruct (IH Hgood) as [Hpresent Hreportable].
  cbn [List.filter]. destruct (fetched (detail_at srv a filter_id)); [|split; assumption].
  cbn [implb] in Hid. apply usable_body in Hid as (_ & Hp & Hr).
  cbn [map List.filter]. rewrite Hp, Hpresent. split; [reflexivity|].
  constructor; assumption.
Qed.

(** A run, after the prompts: the listing, then the pool, the writer and
    the confirmation. *)
Lemma main_after_startup fuel schedule :
  main fuel srv schedule a =
  let rest :=
    filters ← get_jira_filters fuel srv (userName a) (secret a) (baseUrl a)
                (api_version_of a);
    if bool_decide (filters = []) then log WARNING "No filters found."
    else
      filter_details ← fetch_all srv schedule filters h (baseUrl a) (api_version_of a);
      save_filters_to_csv filter_details filename;;
      emit (Print ("Filter details saved to " ++ filename)) in
  ((startup a ++ rest.1)%list, rest.2).
Proof.
  unfold main, api_version_of, startup, input, log, emit.
  cbn -[get_jira_filters fetch_all save_filters_to_csv String.append String.eqb filename].
  destruct (String.eqb (instance_type a) "cloud");
    cbn -[get_jira_filters fetch_all save_filters_to_csv String.append filename];
    reflexivity.
Qed.

Lemma submitted_nil filters ids :
  submitted filters = (ids, None) -> ids <> [] -> filters <> [].
Proof. intros Hsubmitted Hne ->. cbn in Hsubmitted. congruence. Qed.

Lemma rows_of_infos details infos :
  Forall2 (fun d info => filter_info d = Ok info) details infos ->
  map (map (fun kv : string * json => cell_text kv.2)) infos = map row_of details.
Proof.
  induction 1 as [|d info details infos Hinfo _ IH]; [reflexivity|].
  cbn [map]. rewrite IH, (row_of_info _ _ Hinfo). reflexivity.
Qed.

End Pool.

End Main.

(** *** The results on sample runs *)

(** C5 (the code at the failing input). Two filters are listed and both
    detail requests are refused: the writer logs that there is nothing to
    save and writes no file, and the run still prints the line that says
    the details were saved to the output file. *)
Theorem main_confirms_without_file :
  (main 1 details_all_fail [1; 0]%nat operator).2 = Done tt
  /\ written (main 1 details_all_fail [1; 0]%nat operator).1 = []
  /\ logged WARNING (main 1 details_all_fail [1; 0]%nat operator).1
     = ["No filter details to save."]
  /\ printed (main 1 details_all_fail [1; 0]%nat operator).1
     = ["Filter details saved to jira_filters.csv"].
Proof. vm_compute. repeat split. Qed.

(** ** What holds of every run *)

Section Traces.

Lemma trace_all_bind {A B} (P : event -> Prop) (m : M A) (f : A -> M B) :
  trace_all P m -> (forall a, trace_all P (f a)) -> trace_all P (m ≫= f).
Proof.
  unfold trace_all. intros Hm Hf.
  destruct m as [t [a| |]]; cbn [mbind M_bind fst snd] in *; try exact Hm.
  apply Forall_app. split; [exact Hm|apply Hf].
Qed.

Lemma trace_all_lift {A} (P : event -> Prop) (r : result A) : trace_all P (lift r).
Proof. destruct r; constructor. Qed.

Lemma trace_all_json (P : event -> Prop) r : trace_all P (response_json r).
Proof. unfold response_json. destruct (json_body r); constructor. Qed.

Lemma trace_all_emit (P : event -> Prop) e : P e -> trace_all P (emit e).
Proof. intros He. repeat constructor. exact He. Qed.

Lemma trace_all_ret {A} (P : event -> Prop) (a : A) : trace_all P (mret a).
Proof. constructor. Qed.

Lemma trace_all_impl {A} (P Q : event -> Prop) (m : M A) :
  (forall e, P e -> Q e) -> trace_all P m -> trace_all Q m.
Proof. unfold trace_all. intros HPQ Hm. eapply Forall_impl; [exact Hm|exact HPQ]. Qed.

Lemma append_assoc (s1 s2 s3 : string) : (s1 ++ s2) ++ s3 = s1 ++ s2 ++ s3.
Proof.
  induction s1 as [|c s1 IH]; [reflexivity|].
  change (String c ((s1 ++ s2) ++ s3) = String c (s1 ++ s2 ++ s3)).
  rewrite IH. reflexivity.
Qed.

Lemma search_url_under baseUrl api_version start :
  exists rest, search_url baseUrl api_version start = api_root baseUrl api_version ++ rest.
Proof.
  eexists. unfold search_url, api_root. rewrite !append_assoc. reflexivity.
Qed.

Lemma filter_url_under baseUrl api_version filter_id :
  filter_url baseUrl api_version filter_id
  = api_root baseUrl api_version ++ str filter_id.
Proof. unfold filter_url, api_root. rewrite !append_assoc. reflexivity. Qed.

Ltac tracing :=
  repeat first
    [ apply trace_all_lift
    | apply trace_all_json
    | apply trace_all_ret
    | apply trace_all_emit
    | apply trace_all_bind; [|intros ?]
    | match goal with
      | |- trace_all _ (if ?b then _ else _) => destruct b
      end ].

(** The listing only logs and requests, always under the API root and
    with the headers it was given. *)
Lemma paging_loop_requests_under srv h baseUrl api_version fuel :
  forall st,
    trace_all (request_under (api_root baseUrl api_version) h)
      (paging_loop fuel srv h baseUrl api_version st).
Proof.
  induction fuel as [|fuel IH]; intros st; cbn [paging_loop];
    destruct (truthy (is_last st)); try (constructor; fail).
  unfold log, requests_get. tracing; try exact I; try apply IH.
  split; [reflexivity|apply search_url_under].
Qed.

Lemma fetch_filter_details_requests_under srv filter_id h baseUrl api_version :
  trace_all (request_under (api_root baseUrl api_version) h)
    (fetch_filter_details srv filter_id h baseUrl api_version).
Proof.
  unfold fetch_filter_details, log, requests_get. tracing; try exact I.
  split; [reflexivity|]. rewrite filter_url_under. eauto.
Qed.

Lemma request_under_quiet root h t :
  Forall (request_under root h) t -> written t = [] /\ printed t = [].
Proof.
  induction 1 as [|e t He _ [IHw IHp]]; [split; reflexivity|].
  destruct e; try contradiction; cbn; auto.
Qed.

Lemma get_jira_filters_requests_under srv userName token baseUrl api_version fuel :
  trace_all (request_under (api_root baseUrl api_version) (auth_headers userName token))
    (get_jira_filters fuel srv userName token baseUrl api_version).
Proof. apply paging_loop_requests_under. Qed.

Lemma collect_silent results :
  forall filter_details, (collect results filter_details).1 = [].
Proof.
  induction results as [|[result| |] results IH]; intros filter_details;
    cbn [collect]; try reflexivity.
  destruct (negb (is_None result)); apply IH.
Qed.

Lemma fetch_traces_under srv h baseUrl api_version ids :
  Forall (request_under (api_root baseUrl api_version) h)
    (concat (map (fun filter_id =>
                    (fetch_filter_details srv filter_id h baseUrl api_version).1) ids)).
Proof.
  induction ids as [|filter_id ids IH]; [constructor|].
  cbn [map concat]. apply Forall_app. split; [|exact IH].
  apply fetch_filter_details_requests_under.
Qed.

(** The pool only logs and requests, under the API root and with the
    headers it was given, whatever the answers and the order. *)
Lemma fetch_all_requests_under srv schedule filters h baseUrl api_version :
  trace_all (request_under (api_root baseUrl api_version) h)
    (fetch_all srv schedule filters h baseUrl api_version).
Proof.
  unfold fetch_all. destruct (submitted filters) as [ids failure].
  rewrite as_completed_map, !map_map.
  apply trace_all_bind.
  - apply fetch_traces_under.
  - intros _. destruct failure; [constructor|].
    unfold trace_all. rewrite collect_silent. constructor.
Qed.

(** The three ways a call of the writer can end. *)
Lemma save_filters_to_csv_cases filter_details fname :
  save_filters_to_csv filter_details fname
  = ([Log WARNING "No filter details to save."], Done tt)
  \/ (exists e, save_filters_to_csv filter_details fname = ([], Raise e))
  \/ (exists records,
        save_filters_to_csv filter_details fname
        = ([Log INFO ("Saving data to CSV: " ++ fname); ToCsv fname records], Done tt)).
Proof.
  unfold save_filters_to_csv.
  destruct (bool_decide (filter_details = [])); [left; reflexivity|].
  destruct (report_loop filter_details []) as [data|e].
  - right. right. eexists. reflexivity.
  - right. left. exists e. reflexivity.
Qed.

Lemma startup_quiet a : written (startup a) = [] /\ printed (startup a) = [].
Proof. split; reflexivity. Qed.

Lemma startup_authorized root h a : Forall (authorized root h) (startup a).
Proof. unfold startup. repeat constructor. Qed.

(** Every request of a run, of the listing and of the pool alike, is
    sent with the one authorization header built from the operator's user
    name and secret, to a URL under the filter API of the instance, in the
    API version chosen for the instance type. *)
Theorem main_requests_authorized (fuel : nat) (srv : server) (schedule : list nat)
    (a : answers) :
  Forall (authorized (api_root (baseUrl a) (api_version_of a))
                     (auth_headers (userName a) (secret a)))
         (main fuel srv schedule a).1.
Proof.
  rewrite main_after_startup. cbv zeta. cbn [fst].
  apply Forall_app. split; [apply startup_authorized|].
  assert (Hweak : forall e,
             request_under (api_root (baseUrl a) (api_version_of a))
               (auth_headers (userName a) (secret a)) e ->
             authorized (api_root (baseUrl a) (api_version_of a))
               (auth_headers (userName a) (secret a)) e).
  { intros [] He; try exact I; try contradiction. exact He. }
  apply trace_all_bind.
  - eapply trace_all_impl; [exact Hweak|apply get_jira_filters_requests_under].
  - intros filters. destruct (bool_decide (filters = [])).
    + repeat constructor.
    + apply trace_all_bind.
      * eapply trace_all_impl; [exact Hweak|apply fetch_all_requests_under].
      * intros filter_details. apply trace_all_bind; [|intros _; repeat constructor].
        destruct (save_filters_to_csv_cases filter_details filename)
          as [->|[[e ->]|[records ->]]]; repeat constructor.
Qed.

(** The writer leaves at most one file, the one named by its argument,
    and never requests or prints, whatever list it is given. *)
Theorem save_filters_to_csv_one_file (filter_details : list json) (fname : string) :
  (written (save_filters_to_csv filter_details fname).1 = []
   \/ exists records,
        written (save_filters_to_csv filter_details fname).1 = [(fname, records)])
  /\ requested (save_filters_to_csv filter_details fname).1 = []
  /\ printed (save_filters_to_csv filter_details fname).1 = [].
Proof.
  destruct (save_filters_to_csv_cases filter_details fname)
    as [->|[[e ->]|[records ->]]]; cbn [fst snd].
  - repeat split. left. reflexivity.
  - repeat split. left. reflexivity.
  - repeat split. right. exists records. reflexivity.
Qed.

(** A run writes at most one file, [jira_filters.csv], and prints the
    confirmation line at most once.  When it writes the file, the write
    and the confirmation are the last two events of the run, in that
    order, and nothing was written or printed before them. *)
Theorem main_writes_at_most_once (fuel : nat) (srv : server) (schedule : list nat)
    (a : answers) :
  (written (main fuel srv schedule a).1 = []
   /\ (printed (main fuel srv schedule a).1 = []
       \/ printed (main fuel srv schedule a).1
          = ["Filter details saved to jira_filters.csv"]))
  \/ (exists t records,
        (main fuel srv schedule a).1
        = (t ++ [ToCsv filename records;
                 Print "Filter details saved to jira_filters.csv"])%list
        /\ written t = []
        /\ printed t = []).
Proof.
  rewrite main_after_startup. cbv zeta. cbn [fst].
  pose proof (get_jira_filters_requests_under srv (userName a) (secret a) (baseUrl a)
                (api_version_of a) fuel) as Hlisting.
  apply request_under_quiet in Hlisting as [Hw0 Hp0].
  destruct (startup_quiet a) as [Hws Hps].
  destruct (get_jira_filters fuel srv (userName a) (secret a) (baseUrl a)
              (api_version_of a)) as [t0 [filters| |]];
    cbn [mbind M_bind fst snd] in *;
    [|left; rewrite written_app, printed_app, Hws, Hps, Hw0, Hp0;
      split; [reflexivity|left; reflexivity]..].
  destruct (bool_decide (filters = [])).
  { left. rewrite !written_app, !printed_app, Hws, Hps, Hw0, Hp0.
    split; [reflexivity|left; reflexivity]. }
  pose proof (fetch_all_requests_under srv schedule filters
                (auth_headers (userName a) (secret a)) (baseUrl a)
                (api_version_of a)) as Hpool.
  apply request_under_quiet in Hpool as [Hw1 Hp1].
  destruct (fetch_all srv schedule filters _ _ _) as [t1 [filter_details| |]];
    cbn [mbind M_bind fst snd] in *;
    [|left; rewrite !written_app, !printed_app, Hws, Hps, Hw0, Hp0, Hw1, Hp1;
      split; [reflexivity|left; reflexivity]..].
  destruct (save_filters_to_csv_cases filter_details filename)
    as [->|[[e ->]|[records ->]]]; cbn [mbind M_bind emit fst snd app].
  - left. rewrite !written_app, !printed_app, Hws, Hps, Hw0, Hp0, Hw1, Hp1.
    split; [reflexivity|right; reflexivity].
  - left. rewrite !written_app, !printed_app, Hws, Hps, Hw0, Hp0, Hw1, Hp1.
    split; [reflexivity|left; reflexivity].
  - right.
    exists (startup a ++ t0 ++ t1
            ++ [Log INFO ("Saving data to CSV: " ++ filename)])%list, records.
    split; [rewrite <- !app_assoc; reflexivity|].
    rewrite !written_app, !printed_app, Hws, Hps, Hw0, Hp0, Hw1, Hp1.
    split; reflexivity.
Qed.

End Traces.

(** ** The offsets the listing asks for *)

Section Offsets.

Lemma list_ascii_of_append (s1 s2 : string) :
  list_ascii_of_string (s1 ++ s2)
  = (list_ascii_of_string s1 ++ list_ascii_of_string s2)%list.
Proof.
  induction s1 as [|c s1 IH]; [reflexivity|].
  change (c :: list_ascii_of_string (s1 ++ s2)
          = c :: (list_ascii_of_string s1 ++ list_ascii_of_string s2)%list).
  rewrite IH. reflexivity.
Qed.

Lemma append_inj_r (s1 s2 t : string) : s1 ++ t = s2 ++ t -> s1 = s2.
Proof.
  intros Heq. apply (f_equal list_ascii_of_string) in Heq.
  rewrite !list_ascii_of_append in Heq. apply app_inv_tail in Heq.
  rewrite <- (string_of_list_ascii_of_string s1), Heq.
  apply string_of_list_ascii_of_string.
Qed.

(** Distinct offsets give distinct URLs. *)
Lemma search_url_inj baseUrl api_version : Inj (=) (=) (search_url baseUrl api_version).
Proof.
  intros x y Heq. unfold search_url in Heq.
  do 4 apply String.app_inj in Heq.
  apply append_inj_r in Heq. apply pretty_Z_inj in Heq. exact Heq.
Qed.

Lemma page_url_inj baseUrl api_version : Inj (=) (=) (page_url baseUrl api_version).
Proof.
  intros i j Heq. apply search_url_inj in Heq. lia.
Qed.

Lemma requested_log lvl msg t : requested (Log lvl msg :: t) = requested t.
Proof. reflexivity. Qed.

Lemma requested_get url h t : requested (Get url h :: t) = url :: requested t.
Proof. reflexivity. Qed.

(** Whatever the server answers, the requests of the loop are for the
    consecutive offsets from the current one, 50 apart, and there are no
    more of them than iterations. *)
Lemma paging_loop_offsets srv h baseUrl api_version fuel :
  forall st,
    exists k,
      (k <= fuel)%nat
      /\ requested (paging_loop fuel srv h baseUrl api_version st).1
         = map (fun i => search_url baseUrl api_version (start_at st + 50 * Z.of_nat i))
               (seq 0 k).
Proof.
  induction fuel as [|fuel IH]; intros st; cbn [paging_loop];
    destruct (truthy (is_last st));
    try (exists 0%nat; split; [lia|reflexivity]).
  assert (Hone : forall t,
             requested t = [] ->
             exists k,
               (k <= S fuel)%nat
               /\ search_url baseUrl api_version (start_at st) :: requested t
                  = map (fun i => search_url baseUrl api_version
                                    (start_at st + 50 * Z.of_nat i)) (seq 0 k)).
  { intros t ->. exists 1%nat. split; [lia|].
    cbn [seq map Z.of_nat]. rewrite Z.mul_0_r, Z.add_0_r. reflexivity. }
  cbn -[pretty str search_url String.append paging_loop dict_get contains subscript iter requested].
  rewrite requested_log, requested_get, requested_log.
  destruct (negb _); [apply Hone; reflexivity|].
  unfold response_json. destruct (json_body _) as [data|]; [|apply Hone; reflexivity].
  cbn -[pretty str search_url String.append paging_loop dict_get contains subscript iter requested].
  rewrite requested_log.
  destruct (contains "values" data) as [[|]|];
    cbn -[pretty str search_url String.append paging_loop dict_get contains subscript iter requested];
    [|apply Hone; reflexivity..].
  destruct (subscript data "values") as [values|];
    cbn -[pretty str search_url String.append paging_loop dict_get contains subscript iter requested];
    [|apply Hone; reflexivity].
  destruct (iter values) as [items|];
    cbn -[pretty str search_url String.append paging_loop dict_get contains subscript iter requested];
    [|apply Hone; reflexivity].
  destruct (dict_get data "isLast" (JBool true)) as [last|];
    cbn -[pretty str search_url String.append paging_loop dict_get contains subscript iter requested];
    [|apply Hone; reflexivity].
  destruct (IH {| filters := (filters st ++ items)%list;
                  start_at := start_at st + max_results;
                  is_last := last |}) as (k & Hk & ->).
  exists (S k). split; [lia|].
  cbn [seq map start_at Z.of_nat]. rewrite Z.mul_0_r, Z.add_0_r. f_equal.
  rewrite <- seq_shift, map_map. apply map_ext. intros i. f_equal.
  unfold max_results. lia.
Qed.

(** Whatever the server answers, a call of [get_jira_filters] requests the
    listing pages at offsets 0, 50, 100, ... in that order, one request
    each and no more requests than iterations: it never asks for the same
    page twice and never skips one. *)
Theorem get_jira_filters_offsets (fuel : nat) (srv : server)
    (userName token baseUrl api_version : string) :
  exists k,
    (k <= fuel)%nat
    /\ requested (get_jira_filters fuel srv userName token baseUrl api_version).1
       = map (page_url baseUrl api_version) (seq 0 k)
    /\ NoDup (requested (get_jira_filters fuel srv userName token baseUrl api_version).1).
Proof.
  destruct (paging_loop_offsets srv (auth_headers userName token) baseUrl api_version fuel
              {| filters := []; start_at := 0; is_last := JBool false |})
    as (k & Hk & Hreq).
  exists k. split; [exact Hk|].
  unfold get_jira_filters. rewrite Hreq. split; [reflexivity|].
  pose proof (page_url_inj baseUrl api_version) as Hinj.
  apply (NoDup_fmap_2 (page_url baseUrl api_version)), NoDup_seq.
Qed.

End Offsets.

(** ** Pages the listing cannot read *)

Section Unreadable.

Variable srv : server.
Variables userName token baseUrl api_version : string.

Local Abbreviation h := (auth_headers userName token).
Local Abbreviation loop := (fun fuel st => paging_loop fuel srv h baseUrl api_version st).
Local Abbreviation answer := (fun st => srv (search_url baseUrl api_version (start_at st)) h).
Local Abbreviation page := (page_at srv userName token baseUrl api_version).
Local Abbreviation url := (page_url baseUrl api_version).
Local Abbreviation run := (fun fuel => get_jira_filters fuel srv userName token baseUrl api_version).

(** The iteration on such a page ends in the exception, after its one
    request and without an ERROR record. *)
Lemma paging_raises st e :
  truthy (is_last st) = false ->
  raising_page (answer st) e ->
  exists t,
    requested t = [search_url baseUrl api_version (start_at st)]
    /\ logged ERROR t = []
    /\ forall fuel, loop (S fuel) st = (t, Raise e).
Proof.
  intros Hnot [Hstatus Hraise]. cbv beta in *.
  destruct (json_body (srv _ h)) as [data|] eqn:Hbody.
  - destruct (contains "values" data) as [[|]|e'] eqn:Hcontains; try contradiction.
    + destruct (subscript data "values") as [values|e'] eqn:Hvalues.
      * destruct (iter values) as [items|e'] eqn:Hiter; [contradiction|subst e'].
        eexists [_; _; _; _]. split; [|split]; cycle 2.
        { intros fuel. cbn [paging_loop]. rewrite Hnot.
          cbn -[pretty str search_url String.append paging_loop dict_get contains subscript iter].
          rewrite Hstatus.
          cbn -[pretty str search_url String.append paging_loop dict_get contains subscript iter].
          unfold response_json. rewrite Hbody.
          cbn -[pretty str search_url String.append paging_loop dict_get contains subscript iter].
          rewrite Hcontains.
          cbn -[pretty str search_url String.append paging_loop dict_get contains subscript iter].
          rewrite Hvalues.
          cbn -[pretty str search_url String.append paging_loop dict_get contains subscript iter].
          rewrite Hiter. reflexivity. }
        all: reflexivity.
      * subst e'. eexists [_; _; _; _]. split; [|split]; cycle 2.
        { intros fuel. cbn [paging_loop]. rewrite Hnot.
          cbn -[pretty str search_url String.append paging_loop dict_get contains subscript iter].
          rewrite Hstatus.
          cbn -[pretty str search_url String.append paging_loop dict_get contains subscript iter].
          unfold response_json. rewrite Hbody.
          cbn -[pretty str search_url String.append paging_loop dict_get contains subscript iter].
          rewrite Hcontains.
          cbn -[pretty str search_url String.append paging_loop dict_get contains subscript iter].
          rewrite Hvalues. reflexivity. }
        all: reflexivity.
    + subst e'. eexists [_; _; _; _]. split; [|split]; cycle 2.
      { intros fuel. cbn [paging_loop]. rewrite Hnot.
        cbn -[pretty str search_url String.append paging_loop dict_get contains subscript iter].
        rewrite Hstatus.
        cbn -[pretty str search_url String.append paging_loop dict_get contains subscript iter].
        unfold response_json. rewrite Hbody.
        cbn -[pretty str search_url String.append paging_loop dict_get contains subscript iter].
        rewrite Hcontains. reflexivity. }
      all: reflexivity.
  - subst e. eexists [_; _; _]. split; [|split]; cycle 2.
    { intros fuel. cbn [paging_loop]. rewrite Hnot.
      cbn -[pretty str search_url String.append paging_loop dict_get contains subscript iter].
      rewrite Hstatus.
      cbn -[pretty str search_url String.append paging_loop dict_get contains subscript iter].
      unfold response_json. rewrite Hbody. reflexivity. }
    all: reflexivity.
Qed.

(** A 200 page that cannot be read (a body that is not JSON, or is not a
    container, or whose ['values'] cannot be subscripted or iterated) does
    not give the partial result a failing page gives: the call raises, and
    the items of the pages before are lost with it.  No ERROR record is
    logged and no further page is requested. *)
Theorem get_jira_filters_unreadable_page (before : list (list json)) (e : exn) :
  (forall i items, before !! i = Some items -> continuing_page (page i) items) ->
  raising_page (page (length before)) e ->
  forall fuel,
    (length before < fuel)%nat ->
    exists t,
      run fuel = (t, Raise e)
      /\ requested t = map url (seq 0 (S (length before)))
      /\ logged ERROR t = [].
Proof.
  intros Hbefore Hraise fuel Hfuel.
  destruct (get_jira_filters_prefix srv userName token baseUrl api_version before Hbefore)
    as (t0 & st' & Hreq & Hlog & _ & _ & Hstart & Hnot & Hrun).
  destruct (paging_raises st' e Hnot) as (t1 & Hreq1 & Hlog1 & Hrun1).
  { unfold page_at, page_url in Hraise. rewrite Hstart. exact Hraise. }
  exists (t0 ++ t1)%list.
  replace fuel with (length before + S (fuel - S (length before)))%nat by lia.
  rewrite Hrun, Hrun1. cbn [fst snd]. split; [reflexivity|]. split.
  - rewrite requested_app, Hreq, Hreq1, seq_S, map_app, Hstart. reflexivity.
  - rewrite logged_app, Hlog, Hlog1. reflexivity.
Qed.

End Unreadable.

Lemma get_jira_filters_unreadable_page_witness :
  exists t,
    get_jira_filters 5 second_page_html "admin" "s3cret" jira "3"
    = (t, Raise JSONDecodeError)
    /\ requested t = map (page_url jira "3") (seq 0 2)
    /\ logged ERROR t = [].
Proof.
  apply (get_jira_filters_unreadable_page second_page_html "admin" "s3cret" jira "3"
           [[f1; f2]] JSONDecodeError).
  - intros [|[|i]] items Hi; try discriminate. injection Hi as <-.
    exists (JBool false). split; [|reflexivity].
    split; [reflexivity|].
    exists [("values", JList [f1; f2]); ("isLast", JBool false)], (JList [f1; f2]).
    repeat split; reflexivity.
  - split; reflexivity.
  - cbn [length]. lia.
Defined.

(** ** Runs that end early *)

Section EarlyEnds.

Variables (srv : server) (a : answers).

Local Abbreviation h := (auth_headers (userName a) (secret a)).
Local Abbreviation fetch :=
  (fun filter_id => fetch_filter_details srv filter_id h (baseUrl a) (api_version_of a)).
Local Abbreviation listing :=
  (fun fuel => get_jira_filters fuel srv (userName a) (secret a) (baseUrl a)
                 (api_version_of a)).

Lemma listing_quiet fuel t0 o :
  listing fuel = (t0, o) -> written t0 = [] /\ printed t0 = [].
Proof.
  intros Hget.
  pose proof (get_jira_filters_requests_under srv (userName a) (secret a) (baseUrl a)
                (api_version_of a) fuel) as Hunder.
  unfold trace_all in Hunder. rewrite Hget in Hunder.
  exact (request_under_quiet _ _ _ Hunder).
Qed.

(** When the listing returns no filter, the run logs a warning and stops:
    no detail request, no file, no confirmation line. *)
Theorem main_no_filters (fuel : nat) (schedule : list nat) (t0 : list event) :
  listing fuel = (t0, Done []) ->
  main fuel srv schedule a
  = ((startup a ++ t0 ++ [Log WARNING "No filters found."])%list, Done tt)
  /\ requested (main fuel srv schedule a).1 = requested t0
  /\ written (main fuel srv schedule a).1 = []
  /\ printed (main fuel srv schedule a).1 = [].
Proof.
  intros Hget. destruct (listing_quiet _ _ _ Hget) as [Hw Hp].
  assert (Hmain : main fuel srv schedule a
                  = ((startup a ++ t0 ++ [Log WARNING "No filters found."])%list, Done tt)).
  { rewrite main_after_startup, Hget. reflexivity. }
  rewrite Hmain. cbn [fst]. split; [reflexivity|].
  rewrite !requested_app, !written_app, !printed_app, Hw, Hp.
  destruct (startup_quiet a) as [-> ->].
  repeat split. cbn. rewrite app_nil_r. reflexivity.
Qed.

(** The listing never logs a warning of its own. *)
Lemma paging_loop_no_warning hs baseUrl api_version fuel :
  forall st, trace_all no_warning (paging_loop fuel srv hs baseUrl api_version st).
Proof.
  induction fuel as [|fuel IH]; intros st; cbn [paging_loop];
    destruct (truthy (is_last st)); try (constructor; fail).
  unfold log, requests_get.
  repeat first
    [ apply trace_all_lift
    | apply trace_all_json
    | apply trace_all_ret
    | apply trace_all_emit
    | apply trace_all_bind; [|intros ?]
    | match goal with
      | |- trace_all _ (if ?b then _ else _) => destruct b
      end ]; try exact I; apply IH.
Qed.

Lemma no_warning_logged t : Forall no_warning t -> logged WARNING t = [].
Proof.
  induction 1 as [|e t He _ IH]; [reflexivity|].
  destruct e as [[]| | | |]; try contradiction; exact IH.
Qed.

(** When the first listing request is refused (a status other than 200,
    as with wrong credentials) the run ends quietly: that one request, an
    ERROR record for it, the warning that no filters were found, no file
    and no confirmation line. *)
Theorem main_listing_refused (fuel : nat) (schedule : list nat) :
  status_code (page_at srv (userName a) (secret a) (baseUrl a) (api_version_of a) 0)
  <> 200 ->
  (0 < fuel)%nat ->
  exists t msg,
    main fuel srv schedule a = (t, Done tt)
    /\ requested t = [page_url (baseUrl a) (api_version_of a) 0]
    /\ logged ERROR t = [msg]
    /\ logged WARNING t = ["No filters found."]
    /\ written t = []
    /\ printed t = [].
Proof.
  intros Hstatus Hfuel.
  destruct (get_jira_filters_fails srv (userName a) (secret a) (baseUrl a)
              (api_version_of a) []) with (fuel := fuel)
    as (t0 & msg & Hget & Hreq & Hlog); try exact Hfuel.
  { intros i items Hi. discriminate Hi. }
  { left. exact Hstatus. }
  destruct (listing_quiet _ _ _ Hget) as [Hw Hp].
  assert (Hwarn : logged WARNING t0 = []).
  { apply no_warning_logged.
    pose proof (paging_loop_no_warning h (baseUrl a) (api_version_of a) fuel
                  {| filters := []; start_at := 0; is_last := JBool false |}) as Hno.
    unfold trace_all in Hno. unfold get_jira_filters in Hget.
    rewrite Hget in Hno. exact Hno. }
  exists (startup a ++ t0 ++ [Log WARNING "No filters found."])%list, msg.
  split; [rewrite main_after_startup, Hget; reflexivity|].
  rewrite !requested_app, !logged_app, !written_app, !printed_app.
  rewrite Hreq, Hlog, Hwarn, Hw, Hp.
  destruct (startup_quiet a) as [-> ->].
  repeat split.
Qed.

End EarlyEnds.

Lemma main_no_filters_witness :
  main 3 listing_refused [] operator
  = ((startup operator
      ++ (get_jira_filters 3 listing_refused "admin" "s3cret" jira "3").1
      ++ [Log WARNING "No filters found."])%list, Done tt).
Proof.
  apply (main_no_filters listing_refused operator 3 []
           (get_jira_filters 3 listing_refused "admin" "s3cret" jira "3").1).
  vm_compute. reflexivity.
Defined.

Lemma main_listing_refused_witness :
  exists t msg,
    main 3 listing_refused [] operator = (t, Done tt)
    /\ requested t = [page_url jira "3" 0]
    /\ logged ERROR t = [msg]
    /\ logged WARNING t = ["No filters found."]
    /\ written t = []
    /\ printed t = [].
Proof.
  apply (main_listing_refused listing_refused operator 3 []).
  - vm_compute. discriminate.
  - lia.
Defined.

(** ** The pool, whatever the answers *)

Section PoolEdges.

Variables (srv : server) (a : answers).

Local Abbreviation h := (auth_headers (userName a) (secret a)).
Local Abbreviation fetch :=
  (fun filter_id => fetch_filter_details srv filter_id h (baseUrl a) (api_version_of a)).
Local Abbreviation detail_url := (filter_url (baseUrl a) (api_version_of a)).
Local Abbreviation listing :=
  (fun fuel => get_jira_filters fuel srv (userName a) (secret a) (baseUrl a)
                 (api_version_of a)).

(** A fetch makes one request, and ends with a value or with the decoding
    error of [response.json()]. *)
Lemma fetch_requested hs baseUrl api_version filter_id :
  requested (fetch_filter_details srv filter_id hs baseUrl api_version).1
  = [filter_url baseUrl api_version filter_id].
Proof.
  unfold fetch_filter_details, response_json.
  cbn -[pretty str filter_url String.append Z.eqb].
  destruct (negb _); [reflexivity|].
  destruct (json_body _); reflexivity.
Qed.

Lemma fetch_outcome hs baseUrl api_version filter_id :
  (exists d, (fetch_filter_details srv filter_id hs baseUrl api_version).2 = Done d)
  \/ (fetch_filter_details srv filter_id hs baseUrl api_version).2 = Raise JSONDecodeError.
Proof.
  unfold fetch_filter_details, response_json.
  cbn -[pretty str filter_url String.append Z.eqb].
  destruct (negb _); [left; eexists; reflexivity|].
  destruct (json_body _); [left; eexists; reflexivity|right; reflexivity].
Qed.

Lemma fetch_not_json filter_id :
  fetched (detail_at srv a filter_id) = true ->
  json_body (detail_at srv a filter_id) = None ->
  (fetch filter_id).2 = Raise JSONDecodeError.
Proof.
  unfold fetched, detail_at, fetch_filter_details, response_json.
  intros Hstatus Hbody.
  cbn -[pretty str filter_url String.append Z.eqb].
  rewrite Hstatus. cbn -[pretty str filter_url String.append Z.eqb].
  rewrite Hbody. reflexivity.
Qed.

Lemma fetches_requested ids :
  requested (concat (map (fun filter_id => (fetch filter_id).1) ids))
  = map detail_url ids.
Proof.
  induction ids as [|filter_id ids IH]; [reflexivity|].
  cbn [map concat]. rewrite requested_app, IH, fetch_requested. reflexivity.
Qed.

Lemma submitted_ids filters :
  forall ids,
    submitted filters = (ids, None) ->
    Forall2 (fun filter filter_id => subscript filter "id" = Ok filter_id) filters ids.
Proof.
  induction filters as [|filter filters IH]; intros ids Hsubmitted.
  - injection Hsubmitted as <-. constructor.
  - cbn [submitted] in Hsubmitted.
    destruct (subscript filter "id") as [filter_id|e] eqn:Hid; [|discriminate].
    destruct (submitted filters) as [ids' failure].
    injection Hsubmitted as <- ->. constructor; [exact Hid|]. apply IH. reflexivity.
Qed.

Lemma submitted_until good :
  forall ids bad rest e,
    Forall2 (fun filter filter_id => subscript filter "id" = Ok filter_id) good ids ->
    subscript bad "id" = Err e ->
    submitted (good ++ bad :: rest) = (ids, Some e).
Proof.
  induction good as [|filter good IH]; intros ids bad rest e Hgood Hbad.
  - inversion Hgood; subst. cbn [app submitted]. rewrite Hbad. reflexivity.
  - inversion Hgood as [|? filter_id ? ids' Hid Hrest]; subst.
    cbn [app submitted]. rewrite Hid, (IH _ _ _ _ Hrest Hbad). reflexivity.
Qed.

(** The trace and the result of the pool, from those of the fetches. *)
Lemma fetch_all_eq schedule filters ids failure :
  submitted filters = (ids, failure) ->
  fetch_all srv schedule filters h (baseUrl a) (api_version_of a)
  = (concat (map (fun filter_id => (fetch filter_id).1) ids),
     match failure with
     | Some e => Raise e
     | None =>
         (collect (map (fun filter_id => (fetch filter_id).2)
                       (as_completed schedule ids)) []).2
     end).
Proof.
  intros Hsubmitted. unfold fetch_all. rewrite Hsubmitted.
  rewrite as_completed_map, !map_map. cbn [mbind M_bind fst snd].
  destruct failure; cbn [raise fst snd]; rewrite ?collect_silent, app_nil_r;
    reflexivity.
Qed.

(** The pool sends exactly one detail request for each identifier it was
    able to read, whatever the answers and whatever the order in which the
    futures are yielded: up to the order of the requests, they are the
    detail URLs of those identifiers.  When every listed filter has an
    ['id'], that is one request per listed filter. *)
Theorem fetch_all_one_request_each (schedule : list nat) (filters ids : list json)
    (failure : option exn) :
  submitted filters = (ids, failure) ->
  requested (fetch_all srv schedule filters h (baseUrl a) (api_version_of a)).1
  ≡ₚ map detail_url ids
  /\ (failure = None ->
      Forall2 (fun filter filter_id => subscript filter "id" = Ok filter_id) filters ids).
Proof.
  intros Hsubmitted. rewrite (fetch_all_eq _ _ _ _ Hsubmitted). cbn [fst].
  rewrite fetches_requested. split; [reflexivity|].
  intros ->. apply submitted_ids, Hsubmitted.
Qed.

Lemma collect_raises ids filter_id :
  In filter_id ids ->
  (fetch filter_id).2 = Raise JSONDecodeError ->
  forall filter_details,
    (collect (map (fun filter_id => (fetch filter_id).2) ids) filter_details).2
    = Raise JSONDecodeError.
Proof.
  induction ids as [|y ids IH]; intros Hin Hraise filter_details; [contradiction|].
  cbn [map collect].
  destruct (fetch_outcome h (baseUrl a) (api_version_of a) y) as [[d Hd]|Hd];
    rewrite Hd; [|reflexivity].
  destruct Hin as [->|Hin]; [congruence|].
  destruct (negb (is_None d)); apply IH; assumption.
Qed.

(** When a filter of the listing has no ['id'], the run ends in the
    exception of that lookup: the fetches submitted before it are still
    made, one request each after those of the listing, and no file is
    written and no confirmation printed. *)
Theorem main_filter_without_id (fuel : nat) (schedule : list nat) (t0 : list event)
    (good ids : list json) (bad : json) (rest : list json) (e : exn) :
  listing fuel = (t0, Done (good ++ bad :: rest)%list) ->
  Forall2 (fun filter filter_id => subscript filter "id" = Ok filter_id) good ids ->
  subscript bad "id" = Err e ->
  exists t details,
    main fuel srv schedule a = (t, Raise e)
    /\ requested t = (requested t0 ++ details)%list
    /\ details ≡ₚ map detail_url ids
    /\ written t = []
    /\ printed t = [].
Proof.
  intros Hget Hgood Hbad.
  pose proof (submitted_until _ _ _ rest _ Hgood Hbad) as Hsubmitted.
  pose proof (fetch_all_requests_under srv schedule (good ++ bad :: rest)%list h
                (baseUrl a) (api_version_of a)) as Hunder.
  unfold trace_all in Hunder. rewrite (fetch_all_eq _ _ _ _ Hsubmitted) in Hunder.
  cbn [fst] in Hunder. apply request_under_quiet in Hunder as [Hw1 Hp1].
  destruct (listing_quiet _ _ _ _ _ Hget) as [Hw0 Hp0].
  eexists _, (map detail_url ids). split.
  - rewrite main_after_startup, Hget. cbv zeta. cbn [mbind M_bind fst snd].
    rewrite bool_decide_eq_false_2 by (destruct good; discriminate).
    rewrite (fetch_all_eq _ _ _ _ Hsubmitted). cbn [mbind M_bind fst snd].
    reflexivity.
  - rewrite !requested_app, !written_app, !printed_app, Hw0, Hp0, Hw1, Hp1.
    rewrite fetches_requested.
    destruct (startup_quiet a) as [-> ->].
    split; [reflexivity|]. split; [reflexivity|]. split; reflexivity.
Qed.

(** When a detail request is answered 200 with a body that is not JSON,
    the exception of [response.json()] ends the whole run: no file is
    written and no confirmation printed, whatever the other fetches
    returned. *)
Theorem main_detail_not_json (fuel : nat) (schedule : list nat) (t0 : list event)
    (fs ids : list json) (filter_id : json) :
  listing fuel = (t0, Done fs) ->
  submitted fs = (ids, None) ->
  In filter_id ids ->
  fetched (detail_at srv a filter_id) = true ->
  json_body (detail_at srv a filter_id) = None ->
  exists t,
    main fuel srv schedule a = (t, Raise JSONDecodeError)
    /\ written t = []
    /\ printed t = [].
Proof.
  intros Hget Hsubmitted Hin Hfetched Hbody.
  pose proof (fetch_all_requests_under srv schedule fs h
                (baseUrl a) (api_version_of a)) as Hunder.
  unfold trace_all in Hunder. rewrite (fetch_all_eq _ _ _ _ Hsubmitted) in Hunder.
  cbn [fst] in Hunder. apply request_under_quiet in Hunder as [Hw1 Hp1].
  destruct (listing_quiet _ _ _ _ _ Hget) as [Hw0 Hp0].
  assert (Hfs : fs <> []).
  { intros ->. cbn in Hsubmitted. injection Hsubmitted as <-. contradiction. }
  eexists. split.
  - rewrite main_after_startup, Hget. cbv zeta. cbn [mbind M_bind fst snd].
    rewrite bool_decide_eq_false_2 by exact Hfs.
    rewrite (fetch_all_eq _ _ _ _ Hsubmitted).
    rewrite (collect_raises _ filter_id);
      [|eapply Permutation_in; [symmetry; apply as_completed_perm|exact Hin]
       |apply fetch_not_json; assumption].
    cbn [mbind M_bind fst snd]. reflexivity.
  - rewrite !written_app, !printed_app, Hw0, Hp0, Hw1, Hp1.
    destruct (startup_quiet a) as [-> ->]. split; reflexivity.
Qed.

End PoolEdges.

Lemma fetch_all_one_request_each_witness :
  requested (fetch_all five_filters [3; 0; 1]%nat
               (map (fun filter_id => JObj [("id", filter_id)]) five_ids)
               (auth_headers "admin" "s3cret") jira "3").1
  ≡ₚ map (filter_url jira "3") five_ids.
Proof.
  exact (proj1 (fetch_all_one_request_each five_filters operator [3; 0; 1]%nat
                  (map (fun filter_id => JObj [("id", filter_id)]) five_ids)
                  five_ids None eq_refl)).
Defined.

Lemma main_filter_without_id_witness :
  exists t details,
    main 1 third_without_id [1; 0]%nat operator = (t, Raise (KeyError "id"))
    /\ requested t
       = (requested (get_jira_filters 1 third_without_id "admin" "s3cret" jira "3").1
          ++ details)%list
    /\ details ≡ₚ map (filter_url jira "3") [JStr "10001"; JStr "10002"]
    /\ written t = []
    /\ printed t = [].
Proof.
  apply (main_filter_without_id third_without_id operator 1 [1; 0]%nat
           (get_jira_filters 1 third_without_id "admin" "s3cret" jira "3").1
           [f1; f2] [JStr "10001"; JStr "10002"]
           (JObj [("name", JStr "Orphan")]) [] (KeyError "id")).
  - vm_compute. reflexivity.
  - repeat constructor.
  - reflexivity.
Defined.

Lemma main_detail_not_json_witness :
  exists t,
    main 1 second_detail_html [1; 0]%nat operator = (t, Raise JSONDecodeError)
    /\ written t = []
    /\ printed t = [].
Proof.
  apply (main_detail_not_json second_detail_html operator 1 [1; 0]%nat
           (get_jira_filters 1 second_detail_html "admin" "s3cret" jira "3").1
           [f1; f2] [JStr "10001"; JStr "10002"] (JStr "10002")).
  - vm_compute. reflexivity.
  - reflexivity.
  - right. left. reflexivity.
  - vm_compute. reflexivity.
  - vm_compute. reflexivity.
Defined.

(** ** More on the report writer *)

Section ReportEdges.

Lemma row_of_fields d :
  reportable d -> length (row_of d) = 6%nat.
Proof.
  intros [info Hinfo]. rewrite (row_of_info _ _ Hinfo).
  apply filter_info_fields in Hinfo as (? & ? & ? & ? & ? & ? & -> & _).
  reflexivity.
Qed.

(** When a row can be built from every detail that is not [None] and
    there is at least one, the file holds the header and then one row per
    such detail, in the order of the input; every record has six fields. *)
Theorem save_filters_to_csv_rows (filter_details : list json) (fname : string) :
  Forall reportable (List.filter present filter_details) ->
  List.filter present filter_details <> [] ->
  save_filters_to_csv filter_details fname
  = ([Log INFO ("Saving data to CSV: " ++ fname);
      ToCsv fname (report_columns :: map row_of (List.filter present filter_details))],
     Done tt)
  /\ Forall (fun record => length record = 6%nat)
       (report_columns :: map row_of (List.filter present filter_details)).
Proof.
  intros Hreportable Hne.
  destruct (reportable_infos _ Hreportable) as [infos Hinfos].
  assert (Hinfos_ne : infos <> []).
  { intros ->. inversion Hinfos as [Hnil|]. congruence. }
  split.
  - rewrite (save_report _ _ fname Hinfos Hinfos_ne), (rows_of_infos _ _ Hinfos).
    reflexivity.
  - constructor; [reflexivity|]. apply Forall_map.
    eapply Forall_impl; [exact Hreportable|]. intros d Hd. apply row_of_fields, Hd.
Qed.

Lemma report_loop_fails filter_details d e :
  In d filter_details ->
  present d = true ->
  filter_info d = Err e ->
  forall data, exists e', report_loop filter_details data = Err e'.
Proof.
  induction filter_details as [|d' filter_details IH];
    intros Hin Hpresent Hinfo data; [contradiction|].
  cbn [report_loop]. destruct (is_None d') eqn:Hnone.
  - destruct Hin as [->|Hin]; [|apply IH; assumption].
    unfold present in Hpresent. rewrite Hnone in Hpresent. discriminate.
  - destruct (filter_info d') as [info|e'] eqn:Hinfo'; cbn [mbind result_bind];
      [|eauto].
    destruct Hin as [->|Hin]; [congruence|]. apply IH; assumption.
Qed.

(** One detail from which no row can be built (a missing key, a grant
    without its payload) aborts the report: the call raises, and nothing
    is written or logged, whatever the other details are. *)
Theorem save_filters_to_csv_incomplete (filter_details : list json) (fname : string)
    (d : json) (e : exn) :
  In d filter_details ->
  present d = true ->
  filter_info d = Err e ->
  exists e', save_filters_to_csv filter_details fname = ([], Raise e').
Proof.
  intros Hin Hpresent Hinfo. unfold save_filters_to_csv.
  rewrite bool_decide_eq_false_2 by (intros ->; contradiction).
  destruct (report_loop_fails _ _ _ Hin Hpresent Hinfo []) as [e' ->].
  exists e'. reflexivity.
Qed.

(** A permission grant of a recognized type without its payload, in the
    share permissions of one filter, is enough to abort the report. *)
Theorem save_filters_to_csv_bad_grant (filter_details : list json) (fname : string)
    (m owner : list (string * json)) (name owner_name : json) (perms : list json) :
  In (JObj m) filter_details ->
  assoc "name" m = Some name ->
  assoc "owner" m = Some (JObj owner) ->
  assoc "displayName" owner = Some owner_name ->
  assoc "sharePermissions" m = Some (JList perms) ->
  Exists (fun perm => lacks_payload perm = true) perms ->
  exists e, save_filters_to_csv filter_details fname = ([], Raise e).
Proof.
  intros Hin Hname Howner Hdisplay Hshare Hlack.
  destruct (format_loop_lacking _ Hlack []) as [e He].
  unfold save_filters_to_csv.
  rewrite bool_decide_eq_false_2 by (intros ->; contradiction).
  destruct (report_loop_fails filter_details (JObj m) e Hin eq_refl) with (data := @nil (list (string * json)))
    as [e' ->]; [|exists e'; reflexivity].
  unfold filter_info, subscript. rewrite Hname, Howner. cbn [mbind result_bind].
  rewrite Hdisplay, Hshare. cbn [mbind result_bind].
  unfold format_permissions. cbn [iter mbind result_bind]. rewrite He. reflexivity.
Qed.

End ReportEdges.

Lemma save_filters_to_csv_rows_witness :
  save_filters_to_csv [JNull; used_detail "Backlog"; JNull; detail "Open bugs"] filename
  = ([Log INFO ("Saving data to CSV: " ++ filename);
      ToCsv filename
        (report_columns
         :: map row_of
              (List.filter present
                 [JNull; used_detail "Backlog"; JNull; detail "Open bugs"]))],
     Done tt).
Proof.
  apply (save_filters_to_csv_rows
           [JNull; used_detail "Backlog"; JNull; detail "Open bugs"] filename).
  - repeat constructor; eexists; vm_compute; reflexivity.
  - discriminate.
Defined.

Lemma save_filters_to_csv_incomplete_witness :
  exists e',
    save_filters_to_csv [detail "Open bugs"; JObj [("id", JStr "10002")]] filename
    = ([], Raise e').
Proof.
  apply (save_filters_to_csv_incomplete
           [detail "Open bugs"; JObj [("id", JStr "10002")]] filename
           (JObj [("id", JStr "10002")]) (KeyError "name")).
  - right. left. reflexivity.
  - reflexivity.
  - reflexivity.
Defined.

Lemma save_filters_to_csv_bad_grant_witness :
  exists e,
    save_filters_to_csv [detail "Open bugs"; detail_bad_grant] filename = ([], Raise e).
Proof.
  eapply (save_filters_to_csv_bad_grant [detail "Open bugs"; detail_bad_grant] filename).
  - right. left. reflexivity.
  - reflexivity.
  - reflexivity.
  - reflexivity.
  - reflexivity.
  - apply Exists_cons_hd. reflexivity.
Defined.

(** ** More on [format_permissions] *)

Section FormatEdges.

Abbreviation decodes := (fun perm g => decode_grant perm = Some g).

(** The loop over grants that decode, followed by anything. *)
Lemma format_loop_app perms gs :
  Forall2 decodes perms gs ->
  forall rest acc,
    format_loop (perms ++ rest) acc
    = format_loop rest (acc ++ map JStr (concat (map contribution gs)))%list.
Proof.
  induction 1 as [|perm g perms gs Hg _ IH]; intros rest acc.
  - cbn. rewrite app_nil_r. reflexivity.
  - pose proof (format_loop_decoded [perm] [g]
                  ltac:(repeat constructor; exact Hg)) as Hone.
    destruct perm as [| | | | |m]; try discriminate.
    cbn [app]. rewrite format_loop_step.
    specialize (Hone acc). rewrite format_loop_step in Hone.
    cbn [map concat] in *. rewrite app_nil_r in Hone.
    destruct (type_of m).
    + destruct (subscript (JObj m) "user") as [user|]; [|discriminate].
      cbn [mbind result_bind] in *.
      destruct (subscript user "displayName") as [name|]; [|discriminate].
      cbn [mbind result_bind format_loop] in *. injection Hone as Hone.
      rewrite IH, map_app, app_assoc, <- Hone. reflexivity.
    + destruct (subscript (JObj m) "group") as [group|]; [|discriminate].
      cbn [mbind result_bind] in *.
      destruct (subscript group "name") as [name|]; [|discriminate].
      cbn [mbind result_bind format_loop] in *. injection Hone as Hone.
      rewrite IH, map_app, app_assoc, <- Hone. reflexivity.
    + destruct (subscript (JObj m) "projectRole") as [role|]; [|discriminate].
      cbn [mbind result_bind] in *.
      destruct (subscript role "name") as [name|]; [|discriminate].
      cbn [mbind result_bind format_loop] in *. injection Hone as Hone.
      rewrite IH, map_app, app_assoc, <- Hone. reflexivity.
    + cbn [format_loop] in Hone. injection Hone as Hone.
      rewrite IH, map_app, app_assoc, <- Hone. reflexivity.
Qed.

Lemma subscript_obj m key x : assoc key m = Some x -> subscript (JObj m) key = Ok x.
Proof. unfold subscript. intros ->. reflexivity. Qed.

Lemma strings_of_not_str ss v items :
  not_str v = true -> strings_of (map JStr ss ++ v :: items) = Err TypeError.
Proof.
  intros Hv. induction ss as [|s ss IH]; cbn [map app strings_of].
  - destruct v; try discriminate; reflexivity.
  - rewrite IH. reflexivity.
Qed.

(** A user grant whose display name is not a string (a null, a number)
    makes the call raise TypeError when the names are joined, also when
    every other grant is well formed; group and role names of any type are
    formatted, only the user's is used as it is. *)
Theorem format_permissions_user_name_not_str (before after : list json)
    (gs1 gs2 : list grant) (m user : list (string * json)) (name : json) :
  Forall2 decodes before gs1 ->
  Forall2 decodes after gs2 ->
  type_of m = IsUser ->
  assoc "user" m = Some (JObj user) ->
  assoc "displayName" user = Some name ->
  not_str name = true ->
  format_permissions (JList (before ++ JObj m :: after)) = Err TypeError.
Proof.
  intros Hbefore Hafter Htype Huser Hname Hnot.
  unfold format_permissions. cbn [iter mbind result_bind].
  rewrite (format_loop_app _ _ Hbefore), format_loop_step, Htype.
  rewrite (subscript_obj _ _ _ Huser). cbn [mbind result_bind].
  rewrite (subscript_obj _ _ _ Hname). cbn [mbind result_bind].
  rewrite (format_loop_decoded _ _ Hafter). cbn [app mbind result_bind].
  unfold join. rewrite <- app_assoc. cbn [app].
  rewrite strings_of_not_str by exact Hnot. reflexivity.
Qed.

Lemma decodes_kept perms gs :
  Forall2 decodes perms gs ->
  exists gs',
    Forall2 decodes (List.filter (fun perm => negb (other_grant perm)) perms) gs'
    /\ concat (map contribution gs') = concat (map contribution gs).
Proof.
  induction 1 as [|perm g perms gs Hg _ (gs' & Hgs' & Heq)].
  - exists []. split; [constructor|reflexivity].
  - cbn [List.filter]. destruct (other_grant perm) eqn:Hother; cbn [negb].
    + exists gs'. split; [exact Hgs'|].
      destruct perm as [| | | | |m]; try discriminate.
      cbn [other_grant decode_grant] in *.
      destruct (type_of m); try discriminate.
      injection Hg as <-. exact Heq.
    + exists (g :: gs'). split; [constructor; assumption|].
      cbn [map concat]. rewrite Heq. reflexivity.
Qed.

(** The grants of other types are ignored altogether: removing them from
    the list does not change the formatted text. *)
Theorem format_permissions_others_ignored (perms : list json) (gs : list grant) :
  mapM decode_grant perms = Some gs ->
  format_permissions (JList (List.filter (fun perm => negb (other_grant perm)) perms))
  = format_permissions (JList perms).
Proof.
  intros Hgs. apply mapM_Some in Hgs.
  destruct (decodes_kept _ _ Hgs) as (gs' & Hgs' & Heq).
  unfold format_permissions. cbn [iter mbind result_bind].
  rewrite (format_loop_decoded _ _ Hgs), (format_loop_decoded _ _ Hgs'), Heq.
  reflexivity.
Qed.

End FormatEdges.

Lemma format_permissions_user_name_not_str_witness :
  format_permissions
    (JList ([JObj [("type", JStr "group"); ("group", JObj [("name", JStr "Eng")])]]
            ++ JObj nameless_user :: alice_and_eng))
  = Err TypeError.
Proof.
  apply (format_permissions_user_name_not_str
           [JObj [("type", JStr "group"); ("group", JObj [("name", JStr "Eng")])]]
           alice_and_eng
           [GroupGrant "Eng"]
           [UserGrant "Alice"; GroupGrant "Eng"; OtherGrant; RoleGrant "Dev"; OtherGrant]
           nameless_user [("displayName", JNull)] JNull).
  - repeat constructor.
  - repeat constructor.
  - reflexivity.
  - reflexivity.
  - reflexivity.
  - reflexivity.
Defined.

Lemma format_permissions_others_ignored_witness :
  format_permissions (JList (List.filter (fun perm => negb (other_grant perm)) alice_and_eng))
  = format_permissions (JList alice_and_eng).
Proof.
  exact (format_permissions_others_ignored alice_and_eng
           [UserGrant "Alice"; GroupGrant "Eng"; OtherGrant; RoleGrant "Dev"; OtherGrant]
           eq_refl).
Defined.

(** ** A run that writes the report *)

Section Success.

Variables (srv : server) (a : answers).

Local Abbreviation h := (auth_headers (userName a) (secret a)).
Local Abbreviation listing :=
  (fun fuel => get_jira_filters fuel srv (userName a) (secret a) (baseUrl a)
                 (api_version_of a)).
Local Abbreviation good :=
  (fun filter_id => implb (fetched (detail_at srv a filter_id))
                          (usable (detail_at srv a filter_id))).
Local Abbreviation succeeded := (fun filter_id => fetched (detail_at srv a filter_id)).
Local Abbreviation detail_of := (fun filter_id => body (detail_at srv a filter_id)).
Local Abbreviation rows_for :=
  (fun ids => map (fun filter_id => row_of (detail_of filter_id))
                  (List.filter succeeded ids)).

Lemma filter_perm {A} (f : A -> bool) (l l' : list A) :
  l ≡ₚ l' -> List.filter f l ≡ₚ List.filter f l'.
Proof.
  induction 1 as [|x l l' _ IH|x y l|l l' l'' _ IH1 _ IH2]; cbn [List.filter].
  - reflexivity.
  - destruct (f x); [constructor|]; exact IH.
  - destruct (f x), (f y); try reflexivity. apply perm_swap.
  - etransitivity; eassumption.
Qed.

Lemma existsb_filter_nil {A} (f : A -> bool) (l : list A) :
  existsb f l = true -> List.filter f l <> [].
Proof.
  induction l as [|x l IH]; [discriminate|]. cbn [existsb List.filter].
  destruct (f x); [discriminate|exact IH].
Qed.

(** The whole trace of a run in which the listing returns, every listed
    filter has an ['id'], a row can be built from every successful answer
    and at least one fetch succeeds. *)
Lemma main_report fuel schedule t0 fs ids :
  listing fuel = (t0, Done fs) ->
  submitted fs = (ids, None) ->
  forallb good ids = true ->
  existsb succeeded ids = true ->
  exists tf,
    Forall (request_under (api_root (baseUrl a) (api_version_of a)) h) tf
    /\ main fuel srv schedule a
       = ((startup a ++ t0 ++ tf
           ++ [Log INFO ("Saving data to CSV: " ++ filename);
               ToCsv filename (report_columns :: rows_for (as_completed schedule ids));
               Print ("Filter details saved to " ++ filename)])%list,
          Done tt).
Proof.
  intros Hget Hsubmitted Hgood Hsome.
  pose proof (as_completed_perm schedule ids) as Hperm.
  assert (Hgood' : forallb good (as_completed schedule ids) = true)
    by (eapply forallb_perm; [symmetry; exact Hperm|exact Hgood]).
  destruct (fetch_all_succeeded srv a schedule fs ids Hsubmitted Hgood)
    as (tf & Hfetch & _).
  pose proof (fetch_all_requests_under srv schedule fs h (baseUrl a) (api_version_of a))
    as Hunder.
  unfold trace_all in Hunder. rewrite Hfetch in Hunder. cbn [fst] in Hunder.
  destruct (details_reportable srv a _ Hgood') as [Hpresent Hreportable].
  destruct (reportable_infos _ Hreportable) as [infos Hinfos].
  assert (Hne : infos <> []).
  { intros ->. apply Forall2_length in Hinfos. rewrite length_map in Hinfos.
    apply existsb_filter_nil in Hsome.
    apply (filter_perm succeeded) in Hperm.
    destruct (List.filter succeeded (as_completed schedule ids)) eqn:Hy;
      [|discriminate].
    apply Permutation_nil in Hperm. congruence. }
  pose proof Hinfos as Hrows. apply rows_of_infos in Hrows.
  rewrite <- Hpresent in Hinfos at 1.
  pose proof (save_report _ _ filename Hinfos Hne) as Hsave.
  assert (Hfs : fs <> []).
  { intros ->. cbn in Hsubmitted. injection Hsubmitted as <-. discriminate. }
  exists tf. split; [exact Hunder|].
  rewrite main_after_startup, Hget. cbv zeta. cbn [mbind M_bind fst snd].
  rewrite bool_decide_eq_false_2 by exact Hfs.
  rewrite Hfetch. cbn [mbind M_bind fst snd].
  rewrite Hsave, Hrows, map_map. reflexivity.
Qed.

(** In such a run the file is written once, the confirmation line is
    printed once, and the write comes right before the confirmation, at
    the very end of the run. *)
Theorem main_confirms_after_write (fuel : nat) (schedule : list nat) (t0 : list event)
    (fs ids : list json) :
  listing fuel = (t0, Done fs) ->
  submitted fs = (ids, None) ->
  forallb good ids = true ->
  existsb succeeded ids = true ->
  exists t records,
    main fuel srv schedule a
    = ((t ++ [ToCsv filename records;
              Print "Filter details saved to jira_filters.csv"])%list, Done tt)
    /\ written t = []
    /\ printed t = []
    /\ length records = S (length (List.filter succeeded ids)).
Proof.
  intros Hget Hsubmitted Hgood Hsome.
  destruct (main_report fuel schedule t0 fs ids Hget Hsubmitted Hgood Hsome)
    as (tf & Hunder & Hmain).
  apply request_under_quiet in Hunder as [Hw1 Hp1].
  destruct (listing_quiet _ _ _ _ _ Hget) as [Hw0 Hp0].
  exists (startup a ++ t0 ++ tf ++ [Log INFO ("Saving data to CSV: " ++ filename)])%list,
    (report_columns :: rows_for (as_completed schedule ids)).
  split; [|split; [|split]].
  - rewrite Hmain, <- !app_assoc. reflexivity.
  - rewrite !written_app, Hw0, Hw1. destruct (startup_quiet a) as [-> _]. reflexivity.
  - rewrite !printed_app, Hp0, Hp1. destruct (startup_quiet a) as [_ ->]. reflexivity.
  - cbn [length]. rewrite length_map.
    rewrite (filter_length_perm _ _ _ (as_completed_perm schedule ids)). reflexivity.
Qed.

(** The order in which the fetches complete decides the order of the rows
    and nothing else: two runs against the same answers write the same
    header and rows that are a permutation of each other, and of the rows
    of the successful fetches in listing order. *)
Theorem main_rows_any_order (fuel : nat) (schedule1 schedule2 : list nat)
    (t0 : list event) (fs ids : list json) :
  listing fuel = (t0, Done fs) ->
  submitted fs = (ids, None) ->
  forallb good ids = true ->
  existsb succeeded ids = true ->
  exists rows1 rows2,
    written (main fuel srv schedule1 a).1 = [(filename, report_columns :: rows1)]
    /\ written (main fuel srv schedule2 a).1 = [(filename, report_columns :: rows2)]
    /\ rows1 ≡ₚ rows2
    /\ rows1 ≡ₚ rows_for ids.
Proof.
  intros Hget Hsubmitted Hgood Hsome.
  destruct (main_report fuel schedule1 t0 fs ids Hget Hsubmitted Hgood Hsome)
    as (tf1 & Hunder1 & Hmain1).
  destruct (main_report fuel schedule2 t0 fs ids Hget Hsubmitted Hgood Hsome)
    as (tf2 & Hunder2 & Hmain2).
  apply request_under_quiet in Hunder1 as [Hw1 _].
  apply request_under_quiet in Hunder2 as [Hw2 _].
  destruct (listing_quiet _ _ _ _ _ Hget) as [Hw0 _].
  exists (rows_for (as_completed schedule1 ids)), (rows_for (as_completed schedule2 ids)).
  assert (Hrows : forall schedule, rows_for (as_completed schedule ids) ≡ₚ rows_for ids).
  { intros schedule. apply Permutation_map, filter_perm, as_completed_perm. }
  split; [|split; [|split]].
  - rewrite Hmain1. cbn [fst]. rewrite !written_app, Hw0, Hw1.
    destruct (startup_quiet a) as [-> _]. reflexivity.
  - rewrite Hmain2. cbn [fst]. rewrite !written_app, Hw0, Hw2.
    destruct (startup_quiet a) as [-> _]. reflexivity.
  - rewrite (Hrows schedule1), (Hrows schedule2). reflexivity.
  - apply Hrows.
Qed.

End Success.

Lemma main_confirms_after_write_witness :
  exists t records,
    main 1 five_filters [3; 0; 1]%nat operator
    = ((t ++ [ToCsv filename records;
              Print "Filter details saved to jira_filters.csv"])%list, Done tt)
    /\ written t = []
    /\ printed t = []
    /\ length records
       = S (length (List.filter
                      (fun filter_id => fetched (detail_at five_filters operator filter_id))
                      five_ids)).
Proof.
  apply (main_confirms_after_write five_filters operator 1 [3; 0; 1]%nat
           (get_jira_filters 1 five_filters "admin" "s3cret" jira "3").1
           (map (fun filter_id => JObj [("id", filter_id)]) five_ids) five_ids).
  - vm_compute. reflexivity.
  - reflexivity.
  - vm_compute. reflexivity.
  - vm_compute. reflexivity.
Defined.

Lemma main_rows_any_order_witness :
  exists rows1 rows2,
    written (main 1 five_filters [3; 0; 1]%nat operator).1
    = [(filename, report_columns :: rows1)]
    /\ written (main 1 five_filters [4; 4; 4; 4]%nat operator).1
       = [(filename, report_columns :: rows2)]
    /\ rows1 ≡ₚ rows2
    /\ rows1 ≡ₚ map (fun filter_id => row_of (body (detail_at five_filters operator filter_id)))
                    (List.filter
                       (fun filter_id => fetched (detail_at five_filters operator filter_id))
                       five_ids).
Proof.
  apply (main_rows_any_order five_filters operator 1 [3; 0; 1]%nat [4; 4; 4; 4]%nat
           (get_jira_filters 1 five_filters "admin" "s3cret" jira "3").1
           (map (fun filter_id => JObj [("id", filter_id)]) five_ids) five_ids).
  - vm_compute. reflexivity.
  - reflexivity.
  - vm_compute. reflexivity.
  - vm_compute. reflexivity.
Defined.

(** ** A listing that never ends *)

Section Unbounded.

Variable srv : server.
Variables userName token baseUrl api_version : string.

Local Abbreviation page := (page_at srv userName token baseUrl api_version).
Local Abbreviation run := (fun fuel => get_jira_filters fuel srv userName token baseUrl api_version).

Lemma continuing_prefix n :
  (forall i, exists items, continuing_page (page i) items) ->
  exists before : list (list json),
    length before = n
    /\ forall i items, before !! i = Some items -> continuing_page (page i) items.
Proof.
  intros Hall. induction n as [|n (before & Hlen & Hbefore)].
  - exists []. split; [reflexivity|]. intros i items Hi. discriminate Hi.
  - destruct (Hall n) as [items Hitems].
    exists (before ++ [items])%list. split; [rewrite length_app; cbn; lia|].
    intros i items' Hi. destruct (decide (i < length before)%nat) as [Hlt|Hge].
    + rewrite lookup_app_l in Hi by exact Hlt. apply Hbefore, Hi.
    + rewrite lookup_app_r in Hi by lia.
      destruct (i - length before)%nat as [|j] eqn:Hj; [|destruct j; discriminate].
      injection Hi as <-. replace i with n by lia. exact Hitems.
Qed.

(** The loop has no bound of its own: against a server none of whose
    pages carries a true ['isLast'] (or lacks the flag, or fails), no
    number of iterations lets the call return, and every iteration sends
    one more request. *)
Theorem get_jira_filters_unbounded :
  (forall i, exists items, continuing_page (page i) items) ->
  forall fuel,
    (run fuel).2 = OutOfFuel
    /\ requested (run fuel).1 = map (page_url baseUrl api_version) (seq 0 fuel).
Proof.
  intros Hall fuel.
  destruct (continuing_prefix fuel Hall) as (before & Hlen & Hbefore).
  destruct (get_jira_filters_prefix srv userName token baseUrl api_version before Hbefore)
    as (t0 & st' & Hreq & _ & _ & _ & _ & Hnot & Hrun).
  specialize (Hrun 0%nat). rewrite Hlen, Nat.add_0_r in Hrun.
  cbn [paging_loop] in Hrun. rewrite Hnot in Hrun. cbn [out_of_fuel fst snd] in Hrun.
  rewrite Hrun. cbn [fst snd]. split; [reflexivity|].
  rewrite app_nil_r, Hreq, Hlen. reflexivity.
Qed.

End Unbounded.

Lemma get_jira_filters_unbounded_witness :
  (get_jira_filters 7 always_empty "admin" "s3cret" jira "3").2 = OutOfFuel
  /\ requested (get_jira_filters 7 always_empty "admin" "s3cret" jira "3").1
     = map (page_url jira "3") (seq 0 7).
Proof.
  apply (get_jira_filters_unbounded always_empty "admin" "s3cret" jira "3").
  intros i. exists []. exists (JBool false). split; [|reflexivity].
  split; [reflexivity|].
  exists [("values", JList []); ("isLast", JBool false)], (JList []).
  repeat split; reflexivity.
Defined.

(** A ['values'] field that holds a count: the iteration raises TypeError. *)
Example second_page_count_raises :
  (get_jira_filters 5 second_page_count "admin" "s3cret" jira "3").2 = Raise TypeError.
Proof. vm_compute. reflexivity. Qed.

(** ** What the orchestrator hands to the writer *)

Section Orchestrator.

Variables (srv : server) (a : answers).

Local Abbreviation h := (auth_headers (userName a) (secret a)).
Local Abbreviation fetch :=
  (fun filter_id => fetch_filter_details srv filter_id h (baseUrl a) (api_version_of a)).
Local Abbreviation listing :=
  (fun fuel => get_jira_filters fuel srv (userName a) (secret a) (baseUrl a)
                 (api_version_of a)).
Local Abbreviation good :=
  (fun filter_id => implb (fetched (detail_at srv a filter_id))
                          (usable (detail_at srv a filter_id))).
Local Abbreviation succeeded := (fun filter_id => fetched (detail_at srv a filter_id)).
Local Abbreviation detail_of := (fun filter_id => body (detail_at srv a filter_id)).

Lemma fetch_no_warning filter_id : Forall no_warning (fetch filter_id).1.
Proof.
  unfold fetch_filter_details, response_json.
  cbn -[pretty str filter_url String.append Z.eqb].
  destruct (negb _); [repeat constructor|].
  destruct (json_body _); repeat constructor.
Qed.

Lemma fetches_no_warning ids :
  logged WARNING (concat (map (fun filter_id => (fetch filter_id).1) ids)) = [].
Proof.
  induction ids as [|filter_id ids IH]; [reflexivity|].
  cbn [map concat]. rewrite logged_app, IH, app_nil_r.
  apply no_warning_logged, fetch_no_warning.
Qed.

Lemma listing_no_warning fuel t0 o :
  listing fuel = (t0, o) -> logged WARNING t0 = [].
Proof.
  intros Hget. apply no_warning_logged.
  pose proof (paging_loop_no_warning srv h (baseUrl a) (api_version_of a) fuel
                {| filters := []; start_at := 0; is_last := JBool false |}) as Hno.
  unfold trace_all in Hno. unfold get_jira_filters in Hget.
  rewrite Hget in Hno. exact Hno.
Qed.

Lemma filter_none {A} (f : A -> bool) (l : list A) :
  length (List.filter f l) = 0%nat -> List.filter f l = [].
Proof. destruct (List.filter f l); [reflexivity|discriminate]. Qed.

Lemma present_details ids :
  forallb good ids = true ->
  Forall (fun d => is_None d = false) (map detail_of (List.filter succeeded ids)).
Proof.
  intros Hgood.
  destruct (details_reportable srv a ids Hgood) as [Hpresent _].
  rewrite <- Hpresent. apply Forall_forall. intros d Hin.
  apply list_elem_of_In, filter_In in Hin as [_ Hd].
  unfold present in Hd. destruct (is_None d); [discriminate|reflexivity].
Qed.

(** C6. A detail fetch answered with a status other than 200 logs the
    failure and returns [None] without raising, and the orchestrator drops
    every [None]: the list it hands to the writer holds the bodies of the
    successful fetches, in the order their futures are yielded, and no
    [None].  So when [n] identifiers are listed, [k] of them fail and a
    row can be built from every other answer, the report holds exactly the
    [n - k] rows of the successful fetches and none for a failed
    identifier (3 rows for 2 failures out of 5); and when every fetch
    fails the writer is handed the empty list: it logs its warning and
    writes no file. *)
Theorem failed_fetches_leave_no_row (fuel : nat) (schedule : list nat)
    (t0 : list event) (fs ids : list json) (n k : nat) :
  listing fuel = (t0, Done fs) ->
  submitted fs = (ids, None) ->
  forallb good ids = true ->
  length ids = n ->
  length (List.filter (fun filter_id => negb (succeeded filter_id)) ids) = k ->
  (forall filter_id,
      succeeded filter_id = false ->
      exists t msg,
        fetch filter_id = (t, Done JNull) /\ logged ERROR t = [msg])
  /\ (exists tf filter_details,
        fetch_all srv schedule fs h (baseUrl a) (api_version_of a)
        = (tf, Done filter_details)
        /\ filter_details
           = map detail_of (List.filter succeeded (as_completed schedule ids))
        /\ Forall (fun d => is_None d = false) filter_details
        /\ length filter_details = (n - k)%nat)
  /\ ((k < n)%nat ->
      exists t rows,
        main fuel srv schedule a = (t, Done tt)
        /\ written t = [(filename, report_columns :: rows)]
        /\ rows = map (fun filter_id => row_of (detail_of filter_id))
                      (List.filter succeeded (as_completed schedule ids))
        /\ length rows = (n - k)%nat)
  /\ ((0 < n)%nat ->
      k = n ->
      exists t,
        main fuel srv schedule a = (t, Done tt)
        /\ written t = []
        /\ logged WARNING t = ["No filter details to save."]).
Proof.
  intros Hget Hsubmitted Hgood Hn Hk.
  pose proof (as_completed_perm schedule ids) as Hperm.
  assert (Hgood' : forallb good (as_completed schedule ids) = true)
    by (eapply forallb_perm; [symmetry; exact Hperm|exact Hgood]).
  assert (Hcount : length (List.filter succeeded (as_completed schedule ids))
                   = (n - k)%nat).
  { rewrite (filter_length_perm _ _ _ Hperm).
    pose proof (filter_length succeeded ids) as Hsum. cbv beta in Hsum. lia. }
  destruct (fetch_all_succeeded srv a schedule fs ids Hsubmitted Hgood)
    as (tf & Hfetch & Hquiet).
  destruct (listing_quiet _ _ _ _ _ Hget) as [Hw0 _].
  split; [|split; [|split]].
  - intros filter_id Hfailed. apply fetch_filter_details_failed. exact Hfailed.
  - exists tf, (map detail_of (List.filter succeeded (as_completed schedule ids))).
    split; [exact Hfetch|]. split; [reflexivity|].
    split; [apply present_details, Hgood'|].
    rewrite length_map. exact Hcount.
  - intros Hlt.
    assert (Hsome : existsb succeeded ids = true).
    { destruct (existsb succeeded ids) eqn:Hex; [reflexivity|].
      assert (Hnone : List.filter succeeded ids = []).
      { clear -Hex. induction ids as [|x l IH]; [reflexivity|].
        cbn [existsb List.filter] in *. apply orb_false_elim in Hex as [-> Hex].
        apply IH, Hex. }
      rewrite (filter_length_perm _ _ _ Hperm), Hnone in Hcount.
      cbn in Hcount. lia. }
    destruct (main_report srv a fuel schedule t0 fs ids Hget Hsubmitted Hgood Hsome)
      as (tf' & Hunder & Hmain).
    apply request_under_quiet in Hunder as [Hw1 _].
    eexists _, _. split; [exact Hmain|].
    split; [|split; [reflexivity|]].
    + rewrite !written_app, Hw0, Hw1. destruct (startup_quiet a) as [-> _]. reflexivity.
    + rewrite length_map. exact Hcount.
  - intros Hpos ->.
    rewrite Nat.sub_diag in Hcount. apply filter_none in Hcount.
    rewrite Hcount in Hfetch. cbn [map] in Hfetch.
    assert (Hfs : fs <> []).
    { intros ->. cbn in Hsubmitted. injection Hsubmitted as <-.
      cbn [length] in Hn. lia. }
    exists (startup a ++ t0 ++ tf
            ++ [Log WARNING "No filter details to save.";
                Print ("Filter details saved to " ++ filename)])%list.
    split.
    { rewrite main_after_startup, Hget. cbv zeta. cbn [mbind M_bind fst snd].
      rewrite bool_decide_eq_false_2 by exact Hfs.
      rewrite Hfetch. reflexivity. }
    assert (Htf : tf = concat (map (fun filter_id => (fetch filter_id).1) ids)).
    { rewrite (fetch_all_eq srv a schedule fs ids None Hsubmitted) in Hfetch.
      injection Hfetch as <- _. reflexivity. }
    rewrite !written_app, !logged_app, Hw0, Hquiet.
    rewrite (listing_no_warning _ _ _ Hget), Htf, fetches_no_warning.
    destruct (startup_quiet a) as [-> _]. split; reflexivity.
Qed.

End Orchestrator.

Lemma failed_fetches_leave_no_row_witness :
  (exists tf filter_details,
      fetch_all five_filters [3; 0; 1]%nat
        (map (fun filter_id => JObj [("id", filter_id)]) five_ids)
        (auth_headers "admin" "s3cret") jira "3"
      = (tf, Done filter_details)
      /\ filter_details
         = map (fun filter_id => body (detail_at five_filters operator filter_id))
               (List.filter (fun filter_id => fetched (detail_at five_filters operator filter_id))
                  (as_completed [3; 0; 1]%nat five_ids))
      /\ Forall (fun d => is_None d = false) filter_details
      /\ length filter_details = (5 - 2)%nat)
  /\ (exists t rows,
        main 1 five_filters [3; 0; 1]%nat operator = (t, Done tt)
        /\ written t = [(filename, report_columns :: rows)]
        /\ rows = map (fun filter_id => row_of (body (detail_at five_filters operator filter_id)))
                      (List.filter (fun filter_id => fetched (detail_at five_filters operator filter_id))
                         (as_completed [3; 0; 1]%nat five_ids))
        /\ length rows = (5 - 2)%nat).
Proof.
  assert (H := failed_fetches_leave_no_row five_filters operator 1 [3; 0; 1]%nat
                 (get_jira_filters 1 five_filters "admin" "s3cret" jira "3").1
                 (map (fun filter_id => JObj [("id", filter_id)]) five_ids) five_ids 5 2
                 ltac:(vm_compute; reflexivity) eq_refl
                 ltac:(vm_compute; reflexivity) eq_refl
                 ltac:(vm_compute; reflexivity)).
  split.
  - exact (proj1 (proj2 H)).
  - apply (proj1 (proj2 (proj2 H))). lia.
Defined.
